(** * Product catalog router of the online store (app/routers/products.py)

    A shallow embedding of the five product handlers: listing with dynamic
    filters and pagination, retrieval, creation, update and soft deletion.
    The relational store is a pair of tables (lists of rows); every handler
    is a computation in a small state-and-exception monad that threads the
    store together with the log of statements sent through the session. *)

From Stdlib Require Import ZArith QArith List String Bool Lia.
From Stdlib Require Import Sorting.Sorted Sorting.Permutation.
Import ListNotations.

Local Open Scope Z_scope.

(** ** Rows *)

(** Modelled from the spec: the declaration of the product table
    (app/models/products.py) is not among the sources; its columns are the
    ones of the data model (identity, name, description, price, stock,
    category_id, seller_id, is_active).  Prices are exact rationals. *)
Module ProductModel.
Record t : Type := mk {
  id : Z;
  name : string;
  description : string;
  price : Q;
  stock : Z;
  category_id : Z;
  seller_id : Z;
  is_active : bool
}.
End ProductModel.

(** Modelled from the spec: the declaration of the category table
    (app/models/categories.py): identity, name, is_active. *)
Module CategoryModel.
Record t : Type := mk {
  id : Z;
  name : string;
  is_active : bool
}.
End CategoryModel.

(** Modelled from the spec: the user row (app/models/users.py); the handlers
    read nothing but [current_user.id]. *)
Module UserModel.
Record t : Type := mk { id : Z }.
End UserModel.

(** Modelled from the spec: the request body schema [ProductCreate]
    (app/schemas.py); [model_dump] yields exactly these fields. *)
Module ProductCreate.
Record t : Type := mk {
  name : string;
  description : string;
  price : Q;
  stock : Z;
  category_id : Z
}.
End ProductCreate.

(** The response of the listing endpoint (the dict built at the end of
    [get_all_products]). *)
Module ProductList.
Record t : Type := mk {
  items : list ProductModel.t;
  total : Z;
  page : Z;
  page_size : Z
}.
End ProductList.

(** ** Status codes and exceptions *)

Definition HTTP_400_BAD_REQUEST : Z := 400.
Definition HTTP_403_FORBIDDEN : Z := 403.
Definition HTTP_404_NOT_FOUND : Z := 404.
Definition HTTP_422_UNPROCESSABLE_ENTITY : Z := 422.

(** What a handler can raise.  [HTTPException] is the only exception the
    handlers raise themselves.  [ArgumentError] is what the query builder
    raises when an ordering comparison is given [None] as operand;
    [InvalidRequestError] is what [refresh] raises for a row that is gone. *)
Inductive exn : Type :=
| HTTPException (status_code : Z) (detail : string)
| ArgumentError
| InvalidRequestError.

Inductive outcome (A : Type) : Type :=
| Return (a : A)
| Raise (e : exn).
Arguments Return {A} a.
Arguments Raise {A} e.

(** The exception raised for an inverted price range. *)
Definition InvalidRange : exn :=
  HTTPException HTTP_400_BAD_REQUEST "min_price couldn't be higher than max_price".

(** ** The store and the session *)

(** Statements that reach the store through the session. *)
Inductive statement : Type :=
| SelectCount
| SelectProducts
| SelectProduct (product_id : Z)
| SelectCategory (category_id : Z)
| UpdateProduct (product_id : Z)
| InsertProduct
| Commit
| Refresh (product_id : Z).

Definition mutating (s : statement) : bool :=
  match s with
  | UpdateProduct _ | InsertProduct | Commit => true
  | _ => false
  end.

Record Database : Type := mkDatabase {
  products : list ProductModel.t;
  categories : list CategoryModel.t;
  issued : list statement
}.

(** Handlers: state passing over the store, with exceptions. *)
Definition Handler (A : Type) : Type := Database -> outcome A * Database.

Definition ret {A} (a : A) : Handler A := fun db => (Return a, db).
Definition raise {A} (e : exn) : Handler A := fun db => (Raise e, db).
Definition bind {A B} (m : Handler A) (k : A -> Handler B) : Handler B :=
  fun db =>
    match m db with
    | (Return a, db') => k a db'
    | (Raise e, db') => (Raise e, db')
    end.

Declare Scope handler_scope.
Delimit Scope handler_scope with handler.
Notation "x <- m ;; k" := (bind m (fun x => k))
  (at level 100, m at next level, right associativity) : handler_scope.
Notation "m ;;; k" := (bind m (fun _ => k))
  (at level 100, right associativity) : handler_scope.

Definition log (s : statement) (db : Database) : Database :=
  mkDatabase (products db) (categories db) (issued db ++ [s]).

(** ** Queries *)

(** [.order_by(ProductModel.id)]: insertion into a list sorted by id. *)
Fixpoint insert_by_id (p : ProductModel.t) (l : list ProductModel.t)
  : list ProductModel.t :=
  match l with
  | [] => [p]
  | q :: l' =>
      if ProductModel.id p <=? ProductModel.id q then p :: l
      else q :: insert_by_id p l'
  end.

Definition order_by_id (l : list ProductModel.t) : list ProductModel.t :=
  fold_right insert_by_id [] l.

(** [.where( *filters )]: the conjunction of the collected conditions. *)
Definition where_ {A} (filters : list (A -> bool)) (row : A) : bool :=
  forallb (fun f => f row) filters.

(** [select(func.count()).select_from(ProductModel).where( *filters )] run
    through [db.scalar]. *)
Definition scalar_count (filters : list (ProductModel.t -> bool)) : Handler Z :=
  fun db =>
    (Return (Z.of_nat (List.length (filter (where_ filters) (products db)))),
     log SelectCount db).

(** [select(ProductModel).where(..).order_by(id).offset(o).limit(n)] run
    through [db.scalars(..).all()]. *)
Definition scalars_page (filters : list (ProductModel.t -> bool))
    (offset limit : Z) : Handler (list ProductModel.t) :=
  fun db =>
    (Return (firstn (Z.to_nat limit)
               (skipn (Z.to_nat offset)
                  (order_by_id (filter (where_ filters) (products db))))),
     log SelectProducts db).

(** [select(ProductModel).where(id == product_id, is_active == True)],
    then [.first()]. *)
Definition find_active_product (l : list ProductModel.t) (product_id : Z)
  : option ProductModel.t :=
  find (fun p => (ProductModel.id p =? product_id)
                 && Bool.eqb (ProductModel.is_active p) true) l.

Definition first_active_product (product_id : Z)
  : Handler (option ProductModel.t) :=
  fun db => (Return (find_active_product (products db) product_id),
             log (SelectProduct product_id) db).

(** [select(CategoryModel).where(id == category_id, is_active == True)],
    then [.first()]. *)
Definition find_active_category (l : list CategoryModel.t) (category_id : Z)
  : option CategoryModel.t :=
  find (fun c => (CategoryModel.id c =? category_id)
                 && Bool.eqb (CategoryModel.is_active c) true) l.

Definition first_active_category (category_id : Z)
  : Handler (option CategoryModel.t) :=
  fun db => (Return (find_active_category (categories db) category_id),
             log (SelectCategory category_id) db).

(** The rows of the table after
    [update(ProductModel).where(ProductModel.id == product_id).values(..)]:
    every row whose id is [product_id] gets the new values. *)
Definition update_rows (product_id : Z)
    (values : ProductModel.t -> ProductModel.t) (l : list ProductModel.t)
  : list ProductModel.t :=
  map (fun p => if ProductModel.id p =? product_id then values p else p) l.

Definition execute_update (product_id : Z)
    (values : ProductModel.t -> ProductModel.t) : Handler unit :=
  fun db =>
    (Return tt,
     log (UpdateProduct product_id)
       (mkDatabase (update_rows product_id values (products db))
          (categories db) (issued db))).

(** [.values( **body_product.model_dump() )] *)
Definition values_of_body (body : ProductCreate.t) (p : ProductModel.t)
  : ProductModel.t :=
  ProductModel.mk (ProductModel.id p)
    (ProductCreate.name body) (ProductCreate.description body)
    (ProductCreate.price body) (ProductCreate.stock body)
    (ProductCreate.category_id body)
    (ProductModel.seller_id p) (ProductModel.is_active p).

(** [.values(is_active=False)] *)
Definition values_inactive (p : ProductModel.t) : ProductModel.t :=
  ProductModel.mk (ProductModel.id p)
    (ProductModel.name p) (ProductModel.description p)
    (ProductModel.price p) (ProductModel.stock p)
    (ProductModel.category_id p)
    (ProductModel.seller_id p) false.

(** Modelled from the spec: the primary key default of the product table is
    declared in app/models/products.py; a new row gets an identity no stored
    row has. *)
Definition next_id (l : list ProductModel.t) : Z :=
  1 + fold_right Z.max 0 (map ProductModel.id l).

(** [ProductModel( **product.model_dump(), seller_id=current_user.id)]: the
    object before it has an identity.  Modelled from the spec: [is_active] is
    not among the body's fields and defaults to true in the table
    declaration. *)
Definition new_product (body : ProductCreate.t) (seller : Z) (new_id : Z)
  : ProductModel.t :=
  ProductModel.mk new_id
    (ProductCreate.name body) (ProductCreate.description body)
    (ProductCreate.price body) (ProductCreate.stock body)
    (ProductCreate.category_id body)
    seller true.

(** [db.add(db_product)]: the row is written with the next identity (the
    INSERT is flushed by the commit that follows at once). *)
Definition add (row : Z -> ProductModel.t) : Handler ProductModel.t :=
  fun db =>
    let p := row (next_id (products db)) in
    (Return p,
     log InsertProduct
       (mkDatabase (products db ++ [p]) (categories db) (issued db))).

Definition commit : Handler unit :=
  fun db => (Return tt, log Commit db).

(** [db.refresh(product)]: the object is reloaded by primary key. *)
Definition refresh (p : ProductModel.t) : Handler ProductModel.t :=
  fun db =>
    match find (fun q => ProductModel.id q =? ProductModel.id p) (products db) with
    | Some q => (Return q, log (Refresh (ProductModel.id p)) db)
    | None => (Raise InvalidRequestError, log (Refresh (ProductModel.id p)) db)
    end.

(** ** The handlers *)

Local Open Scope handler_scope.

(** [min_price > max_price] on prices. *)
Definition price_gt (a b : Q) : bool := negb (Qle_bool a b).

(** The filter list of [get_all_products], built condition by condition.
    The condition appended for [min_price] compares the price with
    [category_id], as the source does; with [category_id] absent that
    comparison has [None] as operand, which the query builder refuses. *)
Definition build_filters (category_id : option Z) (min_price max_price : option Q)
    (in_stock : option bool) (seller_id : option Z)
  : outcome (list (ProductModel.t -> bool)) :=
  let filters := [fun p => Bool.eqb (ProductModel.is_active p) true] in
  let filters :=
    match category_id with
    | Some c => filters ++ [fun p => ProductModel.category_id p =? c]
    | None => filters
    end in
  match
    match min_price with
    | Some _ =>
        match category_id with
        | Some c =>
            Return (filters ++ [fun p => Qle_bool (inject_Z c) (ProductModel.price p)])
        | None => Raise ArgumentError
        end
    | None => Return filters
    end
  with
  | Raise e => Raise e
  | Return filters =>
      let filters :=
        match max_price with
        | Some hi => filters ++ [fun p => Qle_bool (ProductModel.price p) hi]
        | None => filters
        end in
      let filters :=
        match in_stock with
        | Some b =>
            filters ++ [fun p => if b then 0 <? ProductModel.stock p
                                 else ProductModel.stock p =? 0]
        | None => filters
        end in
      let filters :=
        match seller_id with
        | Some s => filters ++ [fun p => ProductModel.seller_id p =? s]
        | None => filters
        end in
      Return filters
  end.

Definition get_all_products (page page_size : Z) (category_id : option Z)
    (min_price max_price : option Q) (in_stock : option bool)
    (seller_id : option Z) : Handler ProductList.t :=
  if match min_price, max_price with
     | Some lo, Some hi => price_gt lo hi
     | _, _ => false
     end
  then raise InvalidRange
  else
    match build_filters category_id min_price max_price in_stock seller_id with
    | Raise e => raise e
    | Return filters =>
        n <- scalar_count filters ;;
        let total := if n =? 0 then 0 else n in
        items <- scalars_page filters ((page - 1) * page_size) page_size ;;
        ret (ProductList.mk items total page page_size)
    end.

Definition create_product (product : ProductCreate.t)
    (current_user : UserModel.t) : Handler ProductModel.t :=
  cat <- first_active_category (ProductCreate.category_id product) ;;
  match cat with
  | Some _ =>
      db_product <- add (new_product product (UserModel.id current_user)) ;;
      commit ;;;
      refresh db_product
  | None => raise (HTTPException HTTP_400_BAD_REQUEST "Category not found")
  end.

Definition get_products_by_category (category_id : Z)
  : Handler (list ProductModel.t) :=
  cat <- first_active_category category_id ;;
  match cat with
  | Some _ =>
      fun db =>
        (Return (filter (fun p => Bool.eqb (ProductModel.is_active p) true
                                  && (ProductModel.category_id p =? category_id))
                   (products db)),
         log SelectProducts db)
  | None =>
      raise (HTTPException HTTP_404_NOT_FOUND "Category not found or inactive")
  end.

Definition get_product (product_id : Z) : Handler ProductModel.t :=
  product <- first_active_product product_id ;;
  match product with
  | Some product =>
      category <- first_active_category (ProductModel.category_id product) ;;
      match category with
      | Some _ => ret product
      | None =>
          raise (HTTPException HTTP_404_NOT_FOUND "Category not found or inactive")
      end
  | None =>
      raise (HTTPException HTTP_404_NOT_FOUND "Product not found or inactive")
  end.

Definition update_product (product_id : Z) (body_product : ProductCreate.t)
    (current_user : UserModel.t) : Handler ProductModel.t :=
  product <- first_active_product product_id ;;
  match product with
  | None =>
      raise (HTTPException HTTP_404_NOT_FOUND "Product not found or inactive")
  | Some product =>
      if negb (ProductModel.seller_id product =? UserModel.id current_user)
      then raise (HTTPException HTTP_403_FORBIDDEN
                    "You can only update your own products")
      else
        category <- first_active_category (ProductModel.category_id product) ;;
        match category with
        | None =>
            raise (HTTPException HTTP_400_BAD_REQUEST
                     "Category not found or inactive")
        | Some _ =>
            execute_update product_id (values_of_body body_product) ;;;
            commit ;;;
            refresh product
        end
  end.

Definition delete_product (product_id : Z) (current_user : UserModel.t)
  : Handler ProductModel.t :=
  product <- first_active_product product_id ;;
  match product with
  | None =>
      raise (HTTPException HTTP_404_NOT_FOUND "Product not found or inactive")
  | Some product =>
      if negb (ProductModel.seller_id product =? UserModel.id current_user)
      then raise (HTTPException HTTP_403_FORBIDDEN
                    "You can only delete your own products")
      else
        execute_update product_id values_inactive ;;;
        commit ;;;
        refresh product
  end.

(** ** The interface of the listing endpoint *)

(** A [Query(default, ge=.., le=..)] declaration. *)
Module Query.
Record t (A : Type) : Type := mk {
  default : option A;
  ge : option A;
  le : option A
}.
Arguments mk {A}.
Arguments default {A}.
Arguments ge {A}.
Arguments le {A}.

(** The value the handler receives for a parameter: the default when the
    request omits it, the supplied value when it meets the bounds, and no
    value at all (the request is refused) otherwise. *)
Definition resolve {A} (leb : A -> A -> bool) (q : t A) (raw : option A)
  : option (option A) :=
  match raw with
  | None => Some (default q)
  | Some v =>
      if match ge q with Some lo => leb lo v | None => true end
         && match le q with Some hi => leb v hi | None => true end
      then Some (Some v)
      else None
  end.
End Query.

Definition page_query : Query.t Z := Query.mk (Some 1) (Some 1) None.
Definition page_size_query : Query.t Z := Query.mk (Some 20) (Some 1) (Some 100).
Definition category_id_query : Query.t Z := Query.mk None None None.
Definition min_price_query : Query.t Q := Query.mk None (Some (0 # 1)%Q) None.
Definition max_price_query : Query.t Q := Query.mk None (Some (0 # 1)%Q) None.
Definition seller_id_query : Query.t Z := Query.mk None None None.

(** The query string of [GET /products/], parameter by parameter. *)
Module Request.
Record t : Type := mk {
  page : option Z;
  page_size : option Z;
  category_id : option Z;
  min_price : option Q;
  max_price : option Q;
  in_stock : option bool;
  seller_id : option Z
}.
End Request.

(** The route: the parameters are resolved against their declarations, and
    only then the handler runs. *)
Definition route_get_all_products (r : Request.t) : Handler ProductList.t :=
  match Query.resolve Z.leb page_query (Request.page r),
        Query.resolve Z.leb page_size_query (Request.page_size r),
        Query.resolve Z.leb category_id_query (Request.category_id r),
        Query.resolve Qle_bool min_price_query (Request.min_price r),
        Query.resolve Qle_bool max_price_query (Request.max_price r),
        Query.resolve Z.leb seller_id_query (Request.seller_id r)
  with
  | Some (Some page), Some (Some page_size), Some category_id,
    Some min_price, Some max_price, Some seller_id =>
      get_all_products page page_size category_id min_price max_price
        (Request.in_stock r) seller_id
  | _, _, _, _, _, _ =>
      raise (HTTPException HTTP_422_UNPROCESSABLE_ENTITY "validation error")
  end.

(** ** The filter contract, in the words of the specification *)

(** A product satisfies the supplied filters: it is active and meets each
    filter the request supplies (category, price lower bound, price upper
    bound, stock availability, seller). *)
Definition matches_supplied_filters (category_id : option Z)
    (min_price max_price : option Q) (in_stock : option bool)
    (seller_id : option Z) (p : ProductModel.t) : bool :=
  Bool.eqb (ProductModel.is_active p) true
  && match category_id with
     | Some c => ProductModel.category_id p =? c
     | None => true
     end
  && match min_price with
     | Some lo => Qle_bool lo (ProductModel.price p)
     | None => true
     end
  && match max_price with
     | Some hi => Qle_bool (ProductModel.price p) hi
     | None => true
     end
  && match in_stock with
     | Some true => 0 <? ProductModel.stock p
     | Some false => ProductModel.stock p =? 0
     | None => true
     end
  && match seller_id with
     | Some s => ProductModel.seller_id p =? s
     | None => true
     end.

(** The invariant of the data model: an active product references an active
    category. *)
Definition references_active_category (cats : list CategoryModel.t)
    (p : ProductModel.t) : bool :=
  existsb (fun c => (CategoryModel.id c =? ProductModel.category_id p)
                    && CategoryModel.is_active c) cats.

Definition active_products_valid (db : Database) : bool :=
  forallb (fun p => implb (ProductModel.is_active p)
                      (references_active_category (categories db) p))
    (products db).

(** Ascending identity. *)
Definition id_le (p q : ProductModel.t) : Prop :=
  ProductModel.id p <= ProductModel.id q.

(** No statement of the log changes the store. *)
Definition no_mutation (l : list statement) : bool :=
  forallb (fun s => negb (mutating s)) l.

(** The handler raises [e] with both tables as they were, having issued
    read statements only. *)
Definition rejects {A} (h : Handler A) (db : Database) (e : exn) : Prop :=
  fst (h db) = Raise e /\
  products (snd (h db)) = products db /\
  categories (snd (h db)) = categories db /\
  exists reads,
    issued (snd (h db)) = issued db ++ reads /\ no_mutation reads = true.

(** ** A small store *)

Definition office : CategoryModel.t := CategoryModel.mk 1 "office" true.
Definition archive : CategoryModel.t := CategoryModel.mk 2 "archive" false.
Definition pen : ProductModel.t :=
  ProductModel.mk 1 "pen" "ballpoint" (5 # 1)%Q 3 1 7 true.
Definition ink : ProductModel.t :=
  ProductModel.mk 2 "ink" "black" (9 # 1)%Q 0 1 8 true.
Definition store0 : Database := mkDatabase [pen; ink] [office; archive] [].
Definition seller7 : UserModel.t := UserModel.mk 7.
Definition seller8 : UserModel.t := UserModel.mk 8.

(** ** Paging through a listing *)

(** The items one listing request returns (none when the handler raises). *)
Definition listed_items (page page_size : Z) (category_id : option Z)
    (min_price max_price : option Q) (in_stock : option bool)
    (seller_id : option Z) (db : Database) : list ProductModel.t :=
  match fst (get_all_products page page_size category_id min_price max_price
               in_stock seller_id db) with
  | Return r => ProductList.items r
  | Raise _ => []
  end.

(** The items of the pages 1 to [n], one page after the other. *)
Definition pages_up_to (n : nat) (page_size : Z) (category_id : option Z)
    (min_price max_price : option Q) (in_stock : option bool)
    (seller_id : option Z) (db : Database) : list ProductModel.t :=
  flat_map (fun k => listed_items (Z.of_nat k) page_size category_id min_price
                       max_price in_stock seller_id db)
    (seq 1 n).

(** Strictly ascending identity. *)
Definition id_lt (p q : ProductModel.t) : Prop :=
  ProductModel.id p < ProductModel.id q.

(** The conditions of the listing other than the one built for the lower
    price bound, as the handler appends them. *)
Definition meets_plain_filters (category_id : option Z) (max_price : option Q)
    (in_stock : option bool) (seller_id : option Z) (p : ProductModel.t) : Prop :=
  ProductModel.is_active p = true /\
  (forall c, category_id = Some c -> ProductModel.category_id p = c) /\
  (forall hi, max_price = Some hi -> Qle (ProductModel.price p) hi) /\
  (in_stock = Some true -> 0 < ProductModel.stock p) /\
  (in_stock = Some false -> ProductModel.stock p = 0) /\
  (forall s, seller_id = Some s -> ProductModel.seller_id p = s).

(** ** Proof steps for handler runs *)

Ltac run_handler :=
  unfold bind, first_active_product, first_active_category, execute_update,
    add, commit, refresh, raise, ret; simpl.

Ltac close_rejects :=
  unfold rejects; run_handler;
  repeat match goal with
         | H : _ = _ |- _ => rewrite H; simpl
         end;
  repeat split; rewrite <- ?app_assoc; eexists; split; reflexivity.

(** ** Ordering by id *)

Section OrderBy.

Lemma insert_by_id_perm p l : Permutation (p :: l) (insert_by_id p l).
Proof.
  induction l as [|q l IH]; simpl.
  - apply Permutation_refl.
  - destruct (ProductModel.id p <=? ProductModel.id q).
    + apply Permutation_refl.
    + eapply perm_trans; [apply perm_swap|].
      apply perm_skip, IH.
Qed.

Lemma order_by_id_perm l : Permutation l (order_by_id l).
Proof.
  induction l as [|p l IH]; simpl.
  - constructor.
  - eapply perm_trans; [apply perm_skip, IH|].
    apply insert_by_id_perm.
Qed.

Lemma insert_by_id_sorted p l :
  StronglySorted id_le l -> StronglySorted id_le (insert_by_id p l).
Proof.
  induction 1 as [|q l Hs IH Hq]; simpl.
  - repeat constructor.
  - destruct (ProductModel.id p <=? ProductModel.id q) eqn:E.
    + apply Z.leb_le in E.
      constructor; [constructor; assumption|].
      constructor; [exact E|].
      eapply Forall_impl; [|exact Hq].
      unfold id_le; intros; lia.
    + apply Z.leb_gt in E.
      constructor; [exact IH|].
      apply (Permutation_Forall (insert_by_id_perm p l)).
      constructor; [unfold id_le; lia | exact Hq].
Qed.

Lemma order_by_id_sorted l : StronglySorted id_le (order_by_id l).
Proof.
  induction l as [|p l IH]; simpl.
  - constructor.
  - apply insert_by_id_sorted, IH.
Qed.

Lemma order_by_id_In l p : In p (order_by_id l) <-> In p l.
Proof.
  split; apply Permutation_in.
  - apply Permutation_sym, order_by_id_perm.
  - apply order_by_id_perm.
Qed.

Lemma order_by_id_length l : List.length (order_by_id l) = List.length l.
Proof. symmetry. apply Permutation_length, order_by_id_perm. Qed.

Lemma StronglySorted_app_inv (l1 l2 : list ProductModel.t) :
  StronglySorted id_le (l1 ++ l2) ->
  StronglySorted id_le l1 /\ StronglySorted id_le l2.
Proof.
  induction l1 as [|a l1 IH]; simpl; intros H.
  - split; [constructor | exact H].
  - inversion H as [|? ? Hs Ha]; subst.
    destruct (IH Hs) as [H1 H2].
    apply Forall_app in Ha. destruct Ha as [Ha _].
    split; [constructor; assumption | exact H2].
Qed.

(** A window ([offset], then [limit]) of an ordered list is ordered. *)
Lemma window_sorted (l : list ProductModel.t) (o n : nat) :
  StronglySorted id_le l -> StronglySorted id_le (firstn n (skipn o l)).
Proof.
  intros H.
  rewrite <- (firstn_skipn o l) in H.
  apply StronglySorted_app_inv in H. destruct H as [_ H].
  rewrite <- (firstn_skipn n (skipn o l)) in H.
  apply StronglySorted_app_inv in H. exact (proj1 H).
Qed.

Lemma window_In (l : list ProductModel.t) (o n : nat) p :
  In p (firstn n (skipn o l)) -> In p l.
Proof.
  intros H.
  rewrite <- (firstn_skipn o l). apply in_or_app. right.
  rewrite <- (firstn_skipn n (skipn o l)). apply in_or_app. left. exact H.
Qed.

End OrderBy.

(** ** The filter list *)

Section Filters.

Lemma where_app {A} (l : list (A -> bool)) f row :
  where_ (l ++ [f]) row = where_ l row && f row.
Proof.
  unfold where_. rewrite forallb_app. simpl.
  rewrite andb_true_r. reflexivity.
Qed.

(** Whatever the request, the first condition of the list is
    [is_active == True]. *)
Lemma build_filters_active c lo hi s sel fs p :
  build_filters c lo hi s sel = Return fs ->
  where_ fs p = true -> ProductModel.is_active p = true.
Proof.
  unfold build_filters.
  destruct c, lo, hi, s, sel; intros H; inversion H; subst; clear H;
    rewrite ?where_app; unfold where_; simpl; intros H;
    repeat (apply andb_prop in H; destruct H as [H _]);
    destruct (ProductModel.is_active p); simpl in H; congruence.
Qed.

(** Without a lower price bound the list built by the handler is the
    filter contract. *)
Lemma build_filters_without_min_price c hi s sel :
  exists fs,
    build_filters c None hi s sel = Return fs /\
    forall p, where_ fs p = matches_supplied_filters c None hi s sel p.
Proof.
  unfold build_filters, matches_supplied_filters.
  destruct c, hi, s as [[|]|], sel; eexists; (split; [reflexivity|]);
    intros p; rewrite ?where_app; unfold where_; simpl;
    rewrite ?andb_true_r; reflexivity.
Qed.

End Filters.

(** ** Listing *)

Section Listing.

Variables (page page_size : Z).
Variables (category_id : option Z) (max_price : option Q).
Variables (in_stock : option bool) (seller_id : option Z).
Variable db : Database.

Lemma price_gt_spec lo hi : price_gt lo hi = true <-> Qlt hi lo.
Proof.
  unfold price_gt. rewrite negb_true_iff.
  split; intros H.
  - apply Qnot_le_lt. intros Hle.
    apply Qle_bool_iff in Hle. congruence.
  - destruct (Qle_bool lo hi) eqn:E; [|reflexivity].
    apply Qle_bool_iff in E. exfalso. exact (Qlt_not_le _ _ H E).
Qed.

(** What the handler answers once its filter list is known: the count and
    one window of the ordered matches, after two read statements. *)
Lemma get_all_products_run lo fs :
  match lo, max_price with
  | Some a, Some b => price_gt a b
  | _, _ => false
  end = false ->
  build_filters category_id lo max_price in_stock seller_id = Return fs ->
  get_all_products page page_size category_id lo max_price in_stock seller_id db
  = (Return
       (ProductList.mk
          (firstn (Z.to_nat page_size)
             (skipn (Z.to_nat ((page - 1) * page_size))
                (order_by_id (filter (where_ fs) (products db)))))
          (Z.of_nat (List.length (filter (where_ fs) (products db))))
          page page_size),
     log SelectProducts (log SelectCount db)).
Proof.
  intros Hrange Hfs.
  unfold get_all_products. rewrite Hrange, Hfs.
  unfold bind, scalar_count, scalars_page, ret. simpl.
  f_equal. f_equal. f_equal.
  destruct (Z.of_nat (List.length (filter (where_ fs) (products db))) =? 0) eqn:E;
    [apply Z.eqb_eq in E; congruence | reflexivity].
Qed.

(** The listing contract for requests without a lower price bound: at most
    [page_size] items, in ascending id order, all of them active and
    matching the supplied filters, and a total that counts the matching
    active products whatever the window. *)
Theorem get_all_products_without_min_price :
  1 <= page -> 1 <= page_size <= 100 ->
  exists r,
    fst (get_all_products page page_size category_id None max_price
           in_stock seller_id db) = Return r /\
    (Z.of_nat (List.length (ProductList.items r)) <= page_size) /\
    StronglySorted id_le (ProductList.items r) /\
    Forall (fun p => ProductModel.is_active p = true
                     /\ In p (products db)
                     /\ matches_supplied_filters category_id None max_price
                          in_stock seller_id p = true)
      (ProductList.items r) /\
    ProductList.total r
    = Z.of_nat (List.length
                  (filter (matches_supplied_filters category_id None max_price
                             in_stock seller_id) (products db))) /\
    ProductList.page r = page /\ ProductList.page_size r = page_size.
Proof.
  intros Hpage Hsize.
  destruct (build_filters_without_min_price category_id max_price in_stock seller_id)
    as (fs & Hfs & Hmatch).
  rewrite (get_all_products_run None fs eq_refl Hfs). simpl.
  eexists; split; [reflexivity|]. simpl.
  assert (Hext : filter (where_ fs) (products db)
                 = filter (matches_supplied_filters category_id None max_price
                             in_stock seller_id) (products db))
    by (apply filter_ext; exact Hmatch).
  repeat split.
  - pose proof (firstn_le_length (Z.to_nat page_size)
                  (skipn (Z.to_nat ((page - 1) * page_size))
                     (order_by_id (filter (where_ fs) (products db))))) as Hlen.
    lia.
  - apply window_sorted, order_by_id_sorted.
  - apply Forall_forall. intros p Hp.
    apply window_In, order_by_id_In, filter_In in Hp.
    destruct Hp as [Hin Hw].
    repeat split.
    + exact (build_filters_active _ _ _ _ _ _ _ Hfs Hw).
    + exact Hin.
    + rewrite <- Hmatch. exact Hw.
  - rewrite Hext. reflexivity.
Qed.

End Listing.

(** C1. The lower price bound is not applied as the filter contract states
    it: for the request [category_id=1, min_price=100] over the small store
    the handler returns the pen and the ink, whose prices (5 and 9) are
    below 100, because the condition it builds compares the price with the
    category id. *)
Theorem get_all_products_min_price_ignored :
  fst (get_all_products 1 20 (Some 1) (Some (100 # 1)%Q) None None None store0)
  = Return (ProductList.mk [pen; ink] 2 1 20) /\
  Qlt (ProductModel.price pen) (100 # 1)%Q /\
  matches_supplied_filters (Some 1) (Some (100 # 1)%Q) None None None pen = false.
Proof.
  split; [reflexivity|]. split; reflexivity.
Qed.

(** C3. The reported total is not the number of active products satisfying
    the supplied filters when a lower price bound is among them: for the
    request [page=1, page_size=20, category_id=1, min_price=100] over the
    small store the handler reports total 2 and returns two items, while no
    product of the store costs 100 or more. *)
Theorem get_all_products_total_miscounts :
  exists r,
    fst (get_all_products 1 20 (Some 1) (Some (100 # 1)%Q) None None None store0)
    = Return r /\
    ProductList.total r = 2 /\
    List.length (ProductList.items r) = 2%nat /\
    Z.of_nat (List.length
                (filter (matches_supplied_filters (Some 1) (Some (100 # 1)%Q)
                           None None None) (products store0))) = 0.
Proof.
  eexists. split; [reflexivity|]. repeat split.
Qed.

(** C4. When both price bounds are supplied and the lower one exceeds the
    upper one, the listing handler raises the 400 error for the invalid
    range and leaves the session as it was: no statement has been issued,
    whatever the other parameters are. *)
Theorem get_all_products_invalid_range
    (page page_size : Z) (category_id : option Z) (min_price max_price : Q)
    (in_stock : option bool) (seller_id : option Z) (db : Database) :
  Qlt max_price min_price ->
  get_all_products page page_size category_id (Some min_price) (Some max_price)
    in_stock seller_id db
  = (Raise (HTTPException 400 "min_price couldn't be higher than max_price"), db).
Proof.
  intros H. unfold get_all_products.
  apply price_gt_spec in H. rewrite H. reflexivity.
Qed.

Lemma get_all_products_invalid_range_witness :
  Qlt (5 # 1) (10 # 1) /\
  get_all_products 3 10 (Some 1) (Some (10 # 1)%Q) (Some (5 # 1)%Q)
    (Some true) (Some 7) store0
  = (Raise (HTTPException 400 "min_price couldn't be higher than max_price"),
     store0).
Proof.
  split; [reflexivity|].
  apply (get_all_products_invalid_range 3 10 (Some 1) (10 # 1)%Q (5 # 1)%Q
           (Some true) (Some 7) store0).
  reflexivity.
Defined.

(** ** The interface of the listing endpoint *)

Section Interface.

Variable db : Database.

Lemma filter_only_active :
  filter (where_ [fun p => Bool.eqb (ProductModel.is_active p) true]) (products db)
  = filter ProductModel.is_active (products db).
Proof.
  apply filter_ext. intros p. unfold where_. simpl.
  destruct (ProductModel.is_active p); reflexivity.
Qed.

Lemma resolve_page_below v :
  v < 1 -> Query.resolve Z.leb page_query (Some v) = None.
Proof.
  intros H. unfold Query.resolve, page_query. simpl.
  destruct (1 <=? v) eqn:E; [apply Z.leb_le in E; lia | reflexivity].
Qed.

Lemma resolve_page_size_outside v :
  v < 1 \/ 100 < v -> Query.resolve Z.leb page_size_query (Some v) = None.
Proof.
  intros H. unfold Query.resolve, page_size_query. simpl.
  destruct (1 <=? v) eqn:E1; destruct (v <=? 100) eqn:E2; try reflexivity.
  apply Z.leb_le in E1. apply Z.leb_le in E2. lia.
Qed.

End Interface.

(** C10. A listing request that omits [page] and [page_size] is served as
    page 1 with page size 20; the request without any parameter returns the
    first 20 active products in id order (and counts all of them); a request
    whose [page] is below 1 or whose [page_size] is below 1 or above 100 is
    refused with the validation error and the handler does not run: no
    statement is issued. *)
Theorem route_get_all_products_pagination (db : Database) :
  (forall c lo hi s sel,
      route_get_all_products (Request.mk None None c lo hi s sel) db
      = route_get_all_products (Request.mk (Some 1) (Some 20) c lo hi s sel) db) /\
  route_get_all_products (Request.mk None None None None None None None) db
  = (Return (ProductList.mk
               (firstn 20 (order_by_id (filter ProductModel.is_active (products db))))
               (Z.of_nat (List.length (filter ProductModel.is_active (products db))))
               1 20),
     log SelectProducts (log SelectCount db)) /\
  (forall r v,
      (Request.page r = Some v /\ v < 1) \/
      (Request.page_size r = Some v /\ (v < 1 \/ 100 < v)) ->
      route_get_all_products r db
      = (Raise (HTTPException 422 "validation error"), db)).
Proof.
  split; [|split].
  - intros. reflexivity.
  - unfold route_get_all_products. simpl.
    rewrite (get_all_products_run 1 20 None None None None db None
               [fun p => Bool.eqb (ProductModel.is_active p) true]
               eq_refl eq_refl).
    rewrite filter_only_active. reflexivity.
  - intros [pg ps c lo hi s sel] v [[Hp Hv] | [Hp Hv]]; simpl in Hp; subst;
      unfold route_get_all_products; cbn [Request.page Request.page_size].
    + rewrite (resolve_page_below v Hv). reflexivity.
    + rewrite (resolve_page_size_outside v Hv).
      destruct (Query.resolve Z.leb page_query pg) as [[?|]|]; reflexivity.
Qed.

Lemma route_get_all_products_pagination_witness :
  route_get_all_products
    (Request.mk (Some 0) (Some 20) None None None None None) store0
  = (Raise (HTTPException 422 "validation error"), store0) /\
  route_get_all_products
    (Request.mk (Some 1) (Some 101) None None None None None) store0
  = (Raise (HTTPException 422 "validation error"), store0).
Proof.
  destruct (route_get_all_products_pagination store0) as (_ & _ & H).
  split.
  - apply (H (Request.mk (Some 0) (Some 20) None None None None None) 0).
    left. split; [reflexivity | lia].
  - apply (H (Request.mk (Some 1) (Some 101) None None None None None) 101).
    right. split; [reflexivity | lia].
Defined.

(** ** Single-row lookups *)

Section Lookups.

Lemma find_active_product_Some l pid p :
  find_active_product l pid = Some p ->
  In p l /\ ProductModel.id p = pid /\ ProductModel.is_active p = true.
Proof.
  unfold find_active_product. intros H.
  apply find_some in H. destruct H as [Hin H].
  apply andb_prop in H. destruct H as [Hid Hact].
  apply Z.eqb_eq in Hid. apply Bool.eqb_prop in Hact. auto.
Qed.

(** No row is both active and named by the id: the lookup finds nothing. *)
Lemma find_active_product_None l pid :
  (forall q, In q l -> ProductModel.id q = pid ->
             ProductModel.is_active q = false) ->
  find_active_product l pid = None.
Proof.
  intros H. unfold find_active_product.
  destruct (find _ l) as [q|] eqn:E; [|reflexivity].
  apply find_some in E. destruct E as [Hin E].
  apply andb_prop in E. destruct E as [Hid Hact].
  apply Z.eqb_eq in Hid. apply Bool.eqb_prop in Hact.
  rewrite (H q Hin Hid) in Hact. discriminate.
Qed.

Lemma find_active_category_Some l cid c :
  find_active_category l cid = Some c ->
  In c l /\ CategoryModel.id c = cid /\ CategoryModel.is_active c = true.
Proof.
  unfold find_active_category. intros H.
  apply find_some in H. destruct H as [Hin H].
  apply andb_prop in H. destruct H as [Hid Hact].
  apply Z.eqb_eq in Hid. apply Bool.eqb_prop in Hact. auto.
Qed.

Lemma find_active_category_None l cid :
  (forall c, In c l -> CategoryModel.id c = cid ->
             CategoryModel.is_active c = false) ->
  find_active_category l cid = None.
Proof.
  intros H. unfold find_active_category.
  destruct (find _ l) as [c|] eqn:E; [|reflexivity].
  apply find_some in E. destruct E as [Hin E].
  apply andb_prop in E. destruct E as [Hid Hact].
  apply Z.eqb_eq in Hid. apply Bool.eqb_prop in Hact.
  rewrite (H c Hin Hid) in Hact. discriminate.
Qed.

(** An active category with the id is stored: the lookup finds one. *)
Lemma find_active_category_exists l cid :
  (exists c, In c l /\ CategoryModel.id c = cid
             /\ CategoryModel.is_active c = true) ->
  exists c, find_active_category l cid = Some c.
Proof.
  intros (c & Hin & Hid & Hact). unfold find_active_category.
  destruct (find _ l) as [c'|] eqn:E; [eexists; reflexivity|].
  exfalso. apply (find_none _ _ E) in Hin.
  rewrite Hid, Z.eqb_refl, Hact in Hin. discriminate.
Qed.

Lemma references_active_category_find cats p :
  references_active_category cats p = true <->
  exists c, find_active_category cats (ProductModel.category_id p) = Some c.
Proof.
  unfold references_active_category. rewrite existsb_exists. split.
  - intros (c & Hin & H). apply find_active_category_exists.
    apply andb_prop in H. destruct H as [Hid Hact].
    apply Z.eqb_eq in Hid. exists c. auto.
  - intros (c & H). apply find_active_category_Some in H.
    destruct H as (Hin & Hid & Hact). exists c. split; [exact Hin|].
    rewrite Hid, Z.eqb_refl, Hact. reflexivity.
Qed.

End Lookups.

(** ** Retrieval *)

(** C6. Retrieval by id: when no stored row is active under the id, the
    handler raises 404 for the product; when the lookup yields an active
    product whose category is missing or inactive, it raises 404 for the
    category although the product row is stored; when the lookup yields an
    active product with an active category, the handler returns that product.
    The tables are the same afterwards in each case. *)
Theorem get_product_cases (product_id : Z) (db : Database) :
  ((forall q, In q (products db) -> ProductModel.id q = product_id ->
              ProductModel.is_active q = false) ->
   fst (get_product product_id db)
   = Raise (HTTPException 404 "Product not found or inactive")) /\
  (forall p,
      find_active_product (products db) product_id = Some p ->
      (forall c, In c (categories db) ->
                 CategoryModel.id c = ProductModel.category_id p ->
                 CategoryModel.is_active c = false) ->
      In p (products db) /\
      fst (get_product product_id db)
      = Raise (HTTPException 404 "Category not found or inactive")) /\
  (forall p,
      find_active_product (products db) product_id = Some p ->
      (exists c, In c (categories db) /\
                 CategoryModel.id c = ProductModel.category_id p /\
                 CategoryModel.is_active c = true) ->
      fst (get_product product_id db) = Return p) /\
  products (snd (get_product product_id db)) = products db /\
  categories (snd (get_product product_id db)) = categories db.
Proof.
  unfold get_product, bind, first_active_product, first_active_category, raise, ret.
  simpl. split; [|split; [|split; [|split]]].
  - intros H. rewrite (find_active_product_None _ _ H). reflexivity.
  - intros p Hp Hc. split.
    + apply find_active_product_Some in Hp. tauto.
    + rewrite Hp. simpl. rewrite (find_active_category_None _ _ Hc). reflexivity.
  - intros p Hp Hc. rewrite Hp. simpl.
    destruct (find_active_category_exists _ _ Hc) as (c & Hfind).
    rewrite Hfind. reflexivity.
  - destruct (find_active_product (products db) product_id) as [p|]; simpl;
      [destruct (find_active_category (categories db) (ProductModel.category_id p))|];
      reflexivity.
  - destruct (find_active_product (products db) product_id) as [p|]; simpl;
      [destruct (find_active_category (categories db) (ProductModel.category_id p))|];
      reflexivity.
Qed.

Lemma get_product_cases_witness :
  fst (get_product 1 store0) = Return pen /\
  fst (get_product 5 store0)
  = Raise (HTTPException 404 "Product not found or inactive") /\
  fst (get_product 1 (mkDatabase [pen] [archive] []))
  = Raise (HTTPException 404 "Category not found or inactive").
Proof.
  split; [|split].
  - destruct (get_product_cases 1 store0) as (_ & _ & H & _).
    apply (H pen); [reflexivity|].
    exists office. simpl. auto.
  - destruct (get_product_cases 5 store0) as (H & _).
    apply H. simpl. intros q [<- | [<- | []]]; simpl; lia.
  - destruct (get_product_cases 1 (mkDatabase [pen] [archive] [])) as (_ & H & _).
    apply (H pen); [reflexivity|].
    simpl. intros c [<- | []]; reflexivity.
Defined.

(** ** Row updates *)

Section RowUpdates.

Variable product_id : Z.
Variable values : ProductModel.t -> ProductModel.t.
Hypothesis values_id : forall p, ProductModel.id (values p) = ProductModel.id p.

(** Reloading by primary key after the update yields the updated row. *)
Lemma find_by_id_updated l :
  find (fun q => ProductModel.id q =? product_id) (update_rows product_id values l)
  = option_map values (find (fun q => ProductModel.id q =? product_id) l).
Proof.
  unfold update_rows. induction l as [|q l IH]; simpl; [reflexivity|].
  destruct (ProductModel.id q =? product_id) eqn:E.
  - rewrite values_id, E. reflexivity.
  - rewrite E. exact IH.
Qed.

Lemma find_by_id_In l p :
  In p l -> ProductModel.id p = product_id ->
  exists q, find (fun q => ProductModel.id q =? product_id) l = Some q /\
            In q l /\ ProductModel.id q = product_id.
Proof.
  intros Hin Hid.
  destruct (find (fun q => ProductModel.id q =? product_id) l) as [q|] eqn:E.
  - exists q. split; [reflexivity|].
    apply find_some in E. destruct E as [Hq E]. apply Z.eqb_eq in E. auto.
  - exfalso. apply (find_none _ _ E) in Hin.
    rewrite Hid, Z.eqb_refl in Hin. discriminate.
Qed.

(** Rows under another id are left as they are. *)
Lemma updated_elsewhere l :
  (forall q, In q l -> ProductModel.id q <> product_id) -> update_rows product_id values l = l.
Proof.
  unfold update_rows. induction l as [|q l IH]; simpl; intros H; [reflexivity|].
  rewrite IH by (intros; apply H; right; assumption).
  destruct (ProductModel.id q =? product_id) eqn:E; [|reflexivity].
  apply Z.eqb_eq in E. exfalso. apply (H q); [left; reflexivity | exact E].
Qed.

Lemma updated_app l1 p l2 :
  ProductModel.id p = product_id ->
  update_rows product_id values (l1 ++ p :: l2)
  = update_rows product_id values l1 ++ values p
    :: update_rows product_id values l2.
Proof.
  intros Hid. unfold update_rows. rewrite map_app. simpl.
  rewrite Hid, Z.eqb_refl. reflexivity.
Qed.

End RowUpdates.

Section Deactivation.

(** After [values(is_active=False)] no row is active under the id. *)
Lemma find_active_product_deactivated product_id l :
  find_active_product
    (update_rows product_id values_inactive l) product_id = None.
Proof.
  apply find_active_product_None.
  intros q Hin Hid. apply in_map_iff in Hin.
  destruct Hin as (q0 & Hq & _).
  destruct (ProductModel.id q0 =? product_id) eqn:E.
  - subst q. reflexivity.
  - subst q. apply Z.eqb_neq in E. contradiction.
Qed.

(** Under a primary key, the rows around the one named by the id carry
    other ids. *)
Lemma primary_key_split (l1 l2 : list ProductModel.t) p :
  NoDup (map ProductModel.id (l1 ++ p :: l2)) ->
  (forall q, In q l1 -> ProductModel.id q <> ProductModel.id p) /\
  (forall q, In q l2 -> ProductModel.id q <> ProductModel.id p).
Proof.
  rewrite map_app. simpl. intros H.
  apply NoDup_remove_2 in H.
  split; intros q Hq Heq; apply H; apply in_or_app; [left | right];
    rewrite <- Heq; apply in_map; exact Hq.
Qed.

End Deactivation.

Section Insertion.

Lemma next_id_above l p :
  In p l -> ProductModel.id p < next_id l.
Proof.
  unfold next_id. induction l as [|q l IH]; intros H; [contradiction|].
  cbn [map fold_right].
  destruct H as [-> | H]; [lia|].
  specialize (IH H). lia.
Qed.

(** The row just added is the one its identity names. *)
Lemma find_by_id_added l p :
  ProductModel.id p = next_id l ->
  find (fun q => ProductModel.id q =? ProductModel.id p) (l ++ [p]) = Some p.
Proof.
  intros Hid.
  assert (H : forall l', (forall q, In q l' -> ProductModel.id q <> ProductModel.id p) ->
              find (fun q => ProductModel.id q =? ProductModel.id p) (l' ++ [p])
              = Some p).
  { induction l' as [|q l' IH]; simpl; intros Hne.
    - rewrite Z.eqb_refl. reflexivity.
    - destruct (ProductModel.id q =? ProductModel.id p) eqn:E.
      + apply Z.eqb_eq in E. exfalso. apply (Hne q); auto.
      + apply IH. intros; apply Hne; auto. }
  apply H. intros q Hq. apply next_id_above in Hq. lia.
Qed.

End Insertion.

(** ** Update *)

Section Update.

Variables (product_id : Z) (body_product : ProductCreate.t).
Variable current_user : UserModel.t.
Variable db : Database.

Lemma update_product_not_found :
  find_active_product (products db) product_id = None ->
  rejects (update_product product_id body_product current_user) db
    (HTTPException 404 "Product not found or inactive").
Proof. intros H. unfold update_product. close_rejects. Qed.

Lemma update_product_forbidden p :
  find_active_product (products db) product_id = Some p ->
  ProductModel.seller_id p <> UserModel.id current_user ->
  rejects (update_product product_id body_product current_user) db
    (HTTPException 403 "You can only update your own products").
Proof.
  intros H Hs. apply Z.eqb_neq in Hs.
  unfold update_product. close_rejects.
Qed.

Lemma update_product_invalid_category p :
  find_active_product (products db) product_id = Some p ->
  ProductModel.seller_id p = UserModel.id current_user ->
  find_active_category (categories db) (ProductModel.category_id p) = None ->
  rejects (update_product product_id body_product current_user) db
    (HTTPException 400 "Category not found or inactive").
Proof.
  intros H Hs Hc. apply Z.eqb_eq in Hs.
  unfold update_product. close_rejects.
Qed.

(** The successful run: the values of the body are written to the rows
    under the id, committed, and the row is read back. *)
Lemma update_product_run p c :
  find_active_product (products db) product_id = Some p ->
  ProductModel.seller_id p = UserModel.id current_user ->
  find_active_category (categories db) (ProductModel.category_id p) = Some c ->
  exists q,
    fst (update_product product_id body_product current_user db)
    = Return (values_of_body body_product q) /\
    In q (products db) /\ ProductModel.id q = product_id /\
    products (snd (update_product product_id body_product current_user db))
    = update_rows product_id (values_of_body body_product) (products db) /\
    categories (snd (update_product product_id body_product current_user db))
    = categories db.
Proof.
  intros H Hs Hc. apply Z.eqb_eq in Hs.
  destruct (find_active_product_Some _ _ _ H) as (Hin & Hid & _).
  destruct (find_by_id_In product_id _ _ Hin Hid) as (q & Hq & Hqin & Hqid).
  exists q.
  unfold update_product. run_handler. rewrite H. simpl. rewrite Hs. simpl.
  rewrite Hc. simpl. rewrite Hid.
  rewrite (find_by_id_updated product_id (values_of_body body_product)
             (fun _ => eq_refl)).
  rewrite Hq. simpl. auto.
Qed.

End Update.

(** C5. The checks of the update handler, in their order.  With no active
    row under the id the handler raises 404, whoever calls and whatever the
    category; with an active row owned by another seller it raises 403,
    whatever the state of the category; with an active row owned by the
    caller whose category is missing or inactive it raises 400.  In each case
    both tables are as before and only read statements were issued. *)
Theorem update_product_checks
    (product_id : Z) (body_product : ProductCreate.t)
    (current_user : UserModel.t) (db : Database) :
  ((forall q, In q (products db) -> ProductModel.id q = product_id ->
              ProductModel.is_active q = false) ->
   rejects (update_product product_id body_product current_user) db
     (HTTPException 404 "Product not found or inactive")) /\
  (forall p,
      find_active_product (products db) product_id = Some p ->
      ProductModel.seller_id p <> UserModel.id current_user ->
      rejects (update_product product_id body_product current_user) db
        (HTTPException 403 "You can only update your own products")) /\
  (forall p,
      find_active_product (products db) product_id = Some p ->
      ProductModel.seller_id p = UserModel.id current_user ->
      (forall c, In c (categories db) ->
                 CategoryModel.id c = ProductModel.category_id p ->
                 CategoryModel.is_active c = false) ->
      rejects (update_product product_id body_product current_user) db
        (HTTPException 400 "Category not found or inactive")).
Proof.
  split; [|split].
  - intros H. apply update_product_not_found, find_active_product_None, H.
  - intros p Hp Hs. exact (update_product_forbidden _ _ _ _ p Hp Hs).
  - intros p Hp Hs Hc.
    apply (update_product_invalid_category _ _ _ _ p Hp Hs).
    apply find_active_category_None, Hc.
Qed.

Lemma update_product_checks_witness :
  rejects (update_product 1 (ProductCreate.mk "pencil" "hb" (2 # 1)%Q 10 1) seller8)
    store0 (HTTPException 403 "You can only update your own products") /\
  rejects (update_product 5 (ProductCreate.mk "pencil" "hb" (2 # 1)%Q 10 1) seller8)
    store0 (HTTPException 404 "Product not found or inactive") /\
  rejects (update_product 1 (ProductCreate.mk "pencil" "hb" (2 # 1)%Q 10 1) seller7)
    (mkDatabase [pen] [archive] [])
    (HTTPException 400 "Category not found or inactive").
Proof.
  split; [|split].
  - destruct (update_product_checks 1 (ProductCreate.mk "pencil" "hb" (2 # 1)%Q 10 1)
                seller8 store0) as (_ & H & _).
    apply (H pen); [reflexivity | simpl; lia].
  - destruct (update_product_checks 5 (ProductCreate.mk "pencil" "hb" (2 # 1)%Q 10 1)
                seller8 store0) as (H & _).
    apply H. simpl. intros q [<- | [<- | []]]; simpl; lia.
  - destruct (update_product_checks 1 (ProductCreate.mk "pencil" "hb" (2 # 1)%Q 10 1)
                seller7 (mkDatabase [pen] [archive] [])) as (_ & _ & H).
    apply (H pen); [reflexivity | reflexivity |].
    simpl. intros c [<- | []]; reflexivity.
Defined.

(** ** Creation *)

Section Create.

Variable product : ProductCreate.t.
Variable current_user : UserModel.t.
Variable db : Database.

Lemma create_product_invalid_category :
  find_active_category (categories db) (ProductCreate.category_id product) = None ->
  rejects (create_product product current_user) db
    (HTTPException 400 "Category not found").
Proof. intros H. unfold create_product. close_rejects. Qed.

(** The successful run: one row is appended, committed and read back. *)
Lemma create_product_run c :
  find_active_category (categories db) (ProductCreate.category_id product) = Some c ->
  create_product product current_user db
  = (Return (new_product product (UserModel.id current_user) (next_id (products db))),
     mkDatabase
       (products db
        ++ [new_product product (UserModel.id current_user) (next_id (products db))])
       (categories db)
       (issued db ++ [SelectCategory (ProductCreate.category_id product);
                      InsertProduct; Commit; Refresh (next_id (products db))])).
Proof.
  intros H. unfold create_product. run_handler. rewrite H. simpl.
  pose proof (find_by_id_added (products db)
                (new_product product (UserModel.id current_user)
                   (next_id (products db))) eq_refl) as Hfind.
  simpl in Hfind. rewrite Hfind.
  unfold log. simpl. rewrite <- !app_assoc. reflexivity.
Qed.

End Create.

(** C7. Creation against a missing or inactive category raises 400 and
    leaves the product table as it was; creation against an active category
    appends exactly one row to the product table and returns it: the row
    carries the fields of the body, the id of the acting seller as
    [seller_id], [is_active] true and an id no stored row had, and the write
    is committed. *)
Theorem create_product_cases
    (product : ProductCreate.t) (current_user : UserModel.t) (db : Database) :
  ((forall c, In c (categories db) ->
              CategoryModel.id c = ProductCreate.category_id product ->
              CategoryModel.is_active c = false) ->
   rejects (create_product product current_user) db
     (HTTPException 400 "Category not found")) /\
  ((exists c, In c (categories db) /\
              CategoryModel.id c = ProductCreate.category_id product /\
              CategoryModel.is_active c = true) ->
   exists p,
     fst (create_product product current_user db) = Return p /\
     products (snd (create_product product current_user db)) = products db ++ [p] /\
     categories (snd (create_product product current_user db)) = categories db /\
     In Commit (issued (snd (create_product product current_user db))) /\
     ProductModel.seller_id p = UserModel.id current_user /\
     ProductModel.is_active p = true /\
     ProductModel.name p = ProductCreate.name product /\
     ProductModel.description p = ProductCreate.description product /\
     ProductModel.price p = ProductCreate.price product /\
     ProductModel.stock p = ProductCreate.stock product /\
     ProductModel.category_id p = ProductCreate.category_id product /\
     (forall q, In q (products db) -> ProductModel.id q <> ProductModel.id p)).
Proof.
  split.
  - intros H. apply create_product_invalid_category, find_active_category_None, H.
  - intros H. apply find_active_category_exists in H. destruct H as (c & Hc).
    rewrite (create_product_run product current_user db c Hc). simpl.
    eexists. split; [reflexivity|].
    repeat split.
    + apply in_or_app. right. simpl. auto.
    + intros q Hq. apply next_id_above in Hq. simpl. lia.
Qed.

Lemma create_product_cases_witness :
  rejects (create_product (ProductCreate.mk "pencil" "hb" (2 # 1)%Q 10 2) seller8)
    store0 (HTTPException 400 "Category not found") /\
  exists p,
    fst (create_product (ProductCreate.mk "pencil" "hb" (2 # 1)%Q 10 1) seller8 store0)
    = Return p /\
    products (snd (create_product (ProductCreate.mk "pencil" "hb" (2 # 1)%Q 10 1)
                     seller8 store0)) = [pen; ink; p] /\
    ProductModel.seller_id p = 8 /\ ProductModel.is_active p = true.
Proof.
  split.
  - destruct (create_product_cases (ProductCreate.mk "pencil" "hb" (2 # 1)%Q 10 2)
                seller8 store0) as (H & _).
    apply H. simpl. intros c [<- | [<- | []]]; simpl; [lia | reflexivity].
  - destruct (create_product_cases (ProductCreate.mk "pencil" "hb" (2 # 1)%Q 10 1)
                seller8 store0) as (_ & H).
    destruct H as (p & Hp & Hs & _ & _ & Hsel & Hact & _).
    + exists office. simpl. auto.
    + exists p. auto.
Defined.

(** ** Soft deletion *)

Section Delete.

Variable product_id : Z.
Variable current_user : UserModel.t.
Variable db : Database.

Lemma delete_product_not_found :
  find_active_product (products db) product_id = None ->
  rejects (delete_product product_id current_user) db
    (HTTPException 404 "Product not found or inactive").
Proof. intros H. unfold delete_product. close_rejects. Qed.

Lemma delete_product_forbidden p :
  find_active_product (products db) product_id = Some p ->
  ProductModel.seller_id p <> UserModel.id current_user ->
  rejects (delete_product product_id current_user) db
    (HTTPException 403 "You can only delete your own products").
Proof.
  intros H Hs. apply Z.eqb_neq in Hs.
  unfold delete_product. close_rejects.
Qed.

(** The successful run: the flag is cleared on the rows under the id, the
    write is committed, and the row is read back. *)
Lemma delete_product_run p :
  find_active_product (products db) product_id = Some p ->
  ProductModel.seller_id p = UserModel.id current_user ->
  exists q,
    In q (products db) /\ ProductModel.id q = product_id /\
    delete_product product_id current_user db
    = (Return (values_inactive q),
       mkDatabase
         (update_rows product_id values_inactive (products db))
         (categories db)
         (issued db ++ [SelectProduct product_id; UpdateProduct product_id;
                        Commit; Refresh product_id])).
Proof.
  intros H Hs. apply Z.eqb_eq in Hs.
  destruct (find_active_product_Some _ _ _ H) as (Hin & Hid & _).
  destruct (find_by_id_In product_id _ _ Hin Hid) as (q & Hq & Hqin & Hqid).
  exists q. split; [exact Hqin|]. split; [exact Hqid|].
  unfold delete_product. run_handler. rewrite H. simpl. rewrite Hs. simpl.
  rewrite Hid.
  rewrite (find_by_id_updated product_id values_inactive (fun _ => eq_refl)).
  rewrite Hq. simpl. unfold log. simpl. rewrite <- !app_assoc. reflexivity.
Qed.

(** A deletion that returns was asked by the owner of an active row. *)
Lemma delete_product_returns r :
  fst (delete_product product_id current_user db) = Return r ->
  exists p,
    find_active_product (products db) product_id = Some p /\
    ProductModel.seller_id p = UserModel.id current_user.
Proof.
  unfold delete_product. run_handler.
  destruct (find_active_product (products db) product_id) as [p|] eqn:E; simpl;
    [|discriminate].
  destruct (ProductModel.seller_id p =? UserModel.id current_user) eqn:Es; simpl;
    [|discriminate].
  intros _. exists p. apply Z.eqb_eq in Es. auto.
Qed.

End Delete.

(** C8. Soft deletion is not repeatable.  When the owner deletes an active
    product, the call returns the product with [is_active] false and every
    stored row under the id is inactive afterwards; a second deletion of the
    same id on the resulting store, by the owner or by anyone, raises 404
    and so never returns. *)
Theorem delete_product_twice
    (product_id : Z) (current_user : UserModel.t) (db : Database)
    (p : ProductModel.t) :
  find_active_product (products db) product_id = Some p ->
  ProductModel.seller_id p = UserModel.id current_user ->
  exists p' db1,
    delete_product product_id current_user db = (Return p', db1) /\
    ProductModel.id p' = product_id /\
    ProductModel.is_active p' = false /\
    (forall q, In q (products db1) -> ProductModel.id q = product_id ->
               ProductModel.is_active q = false) /\
    (forall user, rejects (delete_product product_id user) db1
                    (HTTPException 404 "Product not found or inactive")).
Proof.
  intros Hp Hs.
  destruct (delete_product_run product_id current_user db p Hp Hs)
    as (q & Hin & Hid & Hrun).
  rewrite Hrun. eexists. eexists. split; [reflexivity|].
  split; [exact Hid|]. split; [reflexivity|]. split.
  - simpl. intros r Hr Hrid. apply in_map_iff in Hr.
    destruct Hr as (r0 & Hr0 & _).
    destruct (ProductModel.id r0 =? product_id) eqn:E; subst r.
    + reflexivity.
    + apply Z.eqb_neq in E. contradiction.
  - intros user. apply delete_product_not_found. simpl.
    apply find_active_product_deactivated.
Qed.

Lemma delete_product_twice_witness :
  exists p' db1,
    delete_product 1 seller7 store0 = (Return p', db1) /\
    ProductModel.is_active p' = false /\
    rejects (delete_product 1 seller7) db1
      (HTTPException 404 "Product not found or inactive").
Proof.
  destruct (delete_product_twice 1 seller7 store0 pen eq_refl eq_refl)
    as (p' & db1 & Hrun & _ & Hact & _ & Hagain).
  exists p', db1. split; [exact Hrun|]. split; [exact Hact|]. apply Hagain.
Defined.

(** C9. The frame of a successful soft deletion, the ids of the product
    table being a primary key: the table is the one before with exactly one
    row replaced, the active row under the id; the replacement has the same
    id, name, description, price, stock, category_id and seller_id and has
    [is_active] false; the rows before and after it, and the category table,
    are as they were.  The returned product is the replaced row. *)
Theorem delete_product_frame
    (product_id : Z) (current_user : UserModel.t) (db : Database)
    (r : ProductModel.t) :
  NoDup (map ProductModel.id (products db)) ->
  fst (delete_product product_id current_user db) = Return r ->
  exists l1 p l2,
    products db = l1 ++ p :: l2 /\
    ProductModel.id p = product_id /\
    ProductModel.is_active p = true /\
    r = ProductModel.mk (ProductModel.id p) (ProductModel.name p)
          (ProductModel.description p) (ProductModel.price p)
          (ProductModel.stock p) (ProductModel.category_id p)
          (ProductModel.seller_id p) false /\
    products (snd (delete_product product_id current_user db)) = l1 ++ r :: l2 /\
    categories (snd (delete_product product_id current_user db)) = categories db.
Proof.
  intros Hkey Hret.
  destruct (delete_product_returns _ _ _ _ Hret) as (p & Hp & Hs).
  destruct (delete_product_run product_id current_user db p Hp Hs)
    as (q & Hqin & Hqid & Hrun).
  rewrite Hrun in Hret |- *. simpl in Hret |- *.
  injection Hret as <-.
  destruct (find_active_product_Some _ _ _ Hp) as (Hin & Hid & Hact).
  destruct (in_split _ _ Hin) as (l1 & l2 & Hsplit).
  rewrite Hsplit in Hkey.
  destruct (primary_key_split l1 l2 p Hkey) as [H1 H2].
  rewrite Hid in H1, H2.
  assert (Hq : q = p).
  { rewrite Hsplit in Hqin. apply in_app_or in Hqin.
    destruct Hqin as [Hq | [Hq | Hq]].
    - exfalso. exact (H1 q Hq Hqid).
    - symmetry. exact Hq.
    - exfalso. exact (H2 q Hq Hqid). }
  subst q.
  exists l1, p, l2.
  split; [exact Hsplit|]. split; [exact Hid|]. split; [exact Hact|].
  split; [reflexivity|]. split; [|reflexivity].
  rewrite Hsplit.
  rewrite (updated_app product_id values_inactive l1 p l2 Hid).
  rewrite (updated_elsewhere product_id values_inactive l1 H1).
  rewrite (updated_elsewhere product_id values_inactive l2 H2).
  reflexivity.
Qed.

Lemma delete_product_frame_witness :
  exists l1 p l2,
    products store0 = l1 ++ p :: l2 /\
    ProductModel.id p = 2 /\
    products (snd (delete_product 2 seller8 store0))
    = l1 ++ ProductModel.mk 2 "ink" "black" (9 # 1)%Q 0 1 8 false :: l2.
Proof.
  assert (Hkey : NoDup (map ProductModel.id (products store0))).
  { simpl. constructor; [simpl; intros [H | []]; discriminate H|].
    constructor; [simpl; tauto | constructor]. }
  destruct (delete_product_frame 2 seller8 store0
              (ProductModel.mk 2 "ink" "black" (9 # 1)%Q 0 1 8 false)
              Hkey eq_refl)
    as (l1 & p & l2 & Hsplit & Hid & _ & _ & Hafter & _).
  exists l1, p, l2. auto.
Defined.

(** ** The invariant: active products reference active categories *)

Section Invariant.

Lemma active_products_valid_tables db db' :
  products db' = products db -> categories db' = categories db ->
  active_products_valid db' = active_products_valid db.
Proof.
  unfold active_products_valid. intros -> ->. reflexivity.
Qed.

Lemma rejects_preserves {A} (h : Handler A) db e :
  rejects h db e ->
  active_products_valid (snd (h db)) = active_products_valid db.
Proof.
  intros (_ & Hp & Hc & _). apply active_products_valid_tables; assumption.
Qed.

(** Creation keeps the invariant: the new row references the active
    category that the handler looked up. *)
Lemma create_product_preserves product current_user db :
  active_products_valid db = true ->
  active_products_valid (snd (create_product product current_user db)) = true.
Proof.
  intros Hinv.
  destruct (find_active_category (categories db)
              (ProductCreate.category_id product)) as [c|] eqn:E.
  - rewrite (create_product_run product current_user db c E).
    unfold active_products_valid in *. simpl.
    rewrite forallb_app, Hinv. simpl. rewrite andb_true_r.
    apply references_active_category_find. simpl. exists c. exact E.
  - rewrite (rejects_preserves _ _ _
               (create_product_invalid_category product current_user db E)).
    exact Hinv.
Qed.

(** Soft deletion keeps the invariant: it only clears flags. *)
Lemma delete_product_preserves product_id current_user db :
  active_products_valid db = true ->
  active_products_valid (snd (delete_product product_id current_user db)) = true.
Proof.
  intros Hinv.
  destruct (find_active_product (products db) product_id) as [p|] eqn:E.
  - destruct (Z.eq_dec (ProductModel.seller_id p) (UserModel.id current_user))
      as [Hs | Hs].
    + destruct (delete_product_run product_id current_user db p E Hs)
        as (q & _ & _ & Hrun).
      rewrite Hrun. unfold active_products_valid in *. simpl.
      apply forallb_forall. intros r Hr. apply in_map_iff in Hr.
      destruct Hr as (r0 & Hr0 & Hin). rewrite forallb_forall in Hinv.
      destruct (ProductModel.id r0 =? product_id); subst r.
      * reflexivity.
      * apply Hinv, Hin.
    + rewrite (rejects_preserves _ _ _
                 (delete_product_forbidden product_id current_user db p E Hs)).
      exact Hinv.
  - rewrite (rejects_preserves _ _ _
               (delete_product_not_found product_id current_user db E)).
    exact Hinv.
Qed.

(** Update keeps the invariant when the category named by the body is
    active; the handler itself does not look that category up. *)
Lemma update_product_preserves product_id body_product current_user db :
  (exists c, find_active_category (categories db)
               (ProductCreate.category_id body_product) = Some c) ->
  active_products_valid db = true ->
  active_products_valid
    (snd (update_product product_id body_product current_user db)) = true.
Proof.
  intros Hbody Hinv.
  destruct (find_active_product (products db) product_id) as [p|] eqn:E.
  - destruct (Z.eq_dec (ProductModel.seller_id p) (UserModel.id current_user))
      as [Hs | Hs].
    + destruct (find_active_category (categories db) (ProductModel.category_id p))
        as [c|] eqn:Ec.
      * destruct (update_product_run product_id body_product current_user db
                    p c E Hs Ec) as (q & _ & _ & _ & Hp & Hc).
        unfold active_products_valid in *. rewrite Hp, Hc.
        apply forallb_forall. intros r Hr. apply in_map_iff in Hr.
        destruct Hr as (r0 & Hr0 & Hin). rewrite forallb_forall in Hinv.
        destruct (ProductModel.id r0 =? product_id); subst r.
        -- replace (references_active_category (categories db)
                      (values_of_body body_product r0)) with true;
             [apply implb_true_r|].
           symmetry. apply references_active_category_find. exact Hbody.
        -- apply Hinv, Hin.
      * rewrite (rejects_preserves _ _ _
                   (update_product_invalid_category product_id body_product
                      current_user db p E Hs Ec)).
        exact Hinv.
    + rewrite (rejects_preserves _ _ _
                 (update_product_forbidden product_id body_product
                    current_user db p E Hs)).
      exact Hinv.
  - rewrite (rejects_preserves _ _ _
               (update_product_not_found product_id body_product
                  current_user db E)).
    exact Hinv.
Qed.

End Invariant.

(** C2. Update does not keep the invariant.  In the small store every
    active product references the active category 1.  The owner of the pen
    updates it with a body naming category 2, which is stored and inactive:
    the handler checks the category the row had, finds it active, writes the
    body and returns the product, which is now active under the inactive
    category 2. *)
Theorem update_product_breaks_invariant :
  active_products_valid store0 = true /\
  find_active_category (categories store0) 2 = None /\
  fst (update_product 1 (ProductCreate.mk "pen" "ballpoint" (5 # 1)%Q 3 2)
         seller7 store0)
  = Return (ProductModel.mk 1 "pen" "ballpoint" (5 # 1)%Q 3 2 7 true) /\
  active_products_valid
    (snd (update_product 1 (ProductCreate.mk "pen" "ballpoint" (5 # 1)%Q 3 2)
            seller7 store0)) = false.
Proof.
  repeat split.
Qed.

(** ** Listing: windows, pages and the conditions applied *)

Section Windows.

Variable A : Type.

Lemma firstn_plus (a b : nat) (l : list A) :
  firstn (a + b) l = firstn a l ++ firstn b (skipn a l).
Proof.
  revert l. induction a as [|a IH]; intros l; simpl; [reflexivity|].
  destruct l as [|x l]; simpl.
  - rewrite firstn_nil. reflexivity.
  - rewrite IH. reflexivity.
Qed.

(** Consecutive windows of one size, put end to end, are a prefix. *)
Lemma windows_concat (s n : nat) (l : list A) :
  flat_map (fun k => firstn s (skipn ((k - 1) * s) l)) (seq 1 n)
  = firstn (n * s) l.
Proof.
  induction n as [|n IH]; [reflexivity|].
  rewrite seq_S, flat_map_app, IH. cbn [flat_map].
  rewrite app_nil_r.
  replace (1 + n - 1)%nat with n by lia.
  replace (S n * s)%nat with (n * s + s)%nat by lia.
  symmetry. apply firstn_plus.
Qed.

Lemma window_length (s o : nat) (l : list A) :
  List.length (firstn s (skipn o l)) = Nat.min s (List.length l - o).
Proof. rewrite length_firstn, length_skipn. reflexivity. Qed.

End Windows.

Section ListingMore.

Variables (page_size : Z).
Variables (category_id : option Z) (min_price max_price : option Q).
Variables (in_stock : option bool) (seller_id : option Z).
Variable db : Database.

(** A listing that returns passed the range check and built its filter
    list. *)
Lemma get_all_products_returns page r :
  fst (get_all_products page page_size category_id min_price max_price
         in_stock seller_id db) = Return r ->
  exists fs,
    build_filters category_id min_price max_price in_stock seller_id = Return fs /\
    r = ProductList.mk
          (firstn (Z.to_nat page_size)
             (skipn (Z.to_nat ((page - 1) * page_size))
                (order_by_id (filter (where_ fs) (products db)))))
          (Z.of_nat (List.length (filter (where_ fs) (products db))))
          page page_size.
Proof.
  intros H.
  destruct (match min_price, max_price with
            | Some a, Some b => price_gt a b
            | _, _ => false
            end) eqn:Hrange.
  - unfold get_all_products in H. rewrite Hrange in H. discriminate H.
  - destruct (build_filters category_id min_price max_price in_stock seller_id)
      as [fs|e] eqn:Hfs.
    + rewrite (get_all_products_run page page_size category_id max_price in_stock
                 seller_id db min_price fs Hrange Hfs) in H.
      simpl in H. injection H as <-. exists fs. auto.
    + unfold get_all_products in H. rewrite Hrange, Hfs in H. discriminate H.
Qed.

(** The conditions for category, upper price bound, stock and seller are in
    every filter list the handler builds. *)
Lemma build_filters_plain fs p :
  build_filters category_id min_price max_price in_stock seller_id = Return fs ->
  where_ fs p = true ->
  meets_plain_filters category_id max_price in_stock seller_id p.
Proof.
  intros Hfs Hw.
  pose proof (build_filters_active _ _ _ _ _ _ _ Hfs Hw) as Hact.
  revert Hfs Hw. unfold build_filters, meets_plain_filters.
  destruct category_id as [c|], min_price as [lo|], max_price as [hi|],
    in_stock as [[|]|], seller_id as [s|];
    intros Hfs; inversion Hfs; subst; clear Hfs;
    rewrite ?where_app; unfold where_; simpl; rewrite ?andb_true_r;
    intros Hw;
    repeat match goal with
           | H : _ && _ = true |- _ => apply andb_prop in H; destruct H
           end;
    (split; [exact Hact|]);
    repeat split; intros;
    repeat match goal with
           | H : Some _ = Some _ |- _ => injection H as <-
           | H : None = Some _ |- _ => discriminate H
           | H : Some _ = None |- _ => discriminate H
           | H : Some true = Some false |- _ => discriminate H
           | H : Some false = Some true |- _ => discriminate H
           end;
    try (apply Z.eqb_eq; assumption);
    try (apply Z.ltb_lt; assumption);
    try (apply Qle_bool_iff; assumption).
Qed.

End ListingMore.

Section ListingProperties.

Variables (page page_size : Z).
Variables (category_id : option Z) (min_price max_price : option Q).
Variables (in_stock : option bool) (seller_id : option Z).
Variable db : Database.

(** Whatever the request, every item of a listing is a stored, active row
    that meets the supplied category, upper price bound, stock and seller
    conditions. *)
Theorem get_all_products_items_meet_filters r :
  fst (get_all_products page page_size category_id min_price max_price
         in_stock seller_id db) = Return r ->
  Forall (fun p => In p (products db) /\
                   meets_plain_filters category_id max_price in_stock seller_id p)
    (ProductList.items r).
Proof.
  intros H. apply get_all_products_returns in H.
  destruct H as (fs & Hfs & ->). simpl.
  apply Forall_forall. intros p Hp.
  apply window_In, order_by_id_In, filter_In in Hp.
  destruct Hp as [Hin Hw].
  split; [exact Hin|].
  exact (build_filters_plain _ _ _ _ _ fs p Hfs Hw).
Qed.

(** The number of items of a page is what is left of the total after the
    pages before it, cut at [page_size]. *)
Theorem get_all_products_page_length r :
  1 <= page -> 0 <= page_size ->
  fst (get_all_products page page_size category_id min_price max_price
         in_stock seller_id db) = Return r ->
  Z.of_nat (List.length (ProductList.items r))
  = Z.min page_size
      (Z.max 0 (ProductList.total r - (page - 1) * page_size)).
Proof.
  intros Hpage Hsize H. apply get_all_products_returns in H.
  destruct H as (fs & Hfs & ->). simpl.
  rewrite window_length, order_by_id_length.
  assert (0 <= (page - 1) * page_size) by (apply Z.mul_nonneg_nonneg; lia).
  lia.
Qed.

(** A listing reads: whatever the request and whether it returns or raises,
    both tables are as before and no mutating statement was issued. *)
Theorem get_all_products_read_only :
  products (snd (get_all_products page page_size category_id min_price max_price
                   in_stock seller_id db)) = products db /\
  categories (snd (get_all_products page page_size category_id min_price max_price
                     in_stock seller_id db)) = categories db /\
  exists reads,
    issued (snd (get_all_products page page_size category_id min_price max_price
                   in_stock seller_id db)) = issued db ++ reads /\
    no_mutation reads = true.
Proof.
  destruct (match min_price, max_price with
            | Some a, Some b => price_gt a b
            | _, _ => false
            end) eqn:Hrange.
  - unfold get_all_products. rewrite Hrange. simpl.
    repeat split. exists []. rewrite app_nil_r. auto.
  - destruct (build_filters category_id min_price max_price in_stock seller_id)
      as [fs|e] eqn:Hfs.
    + rewrite (get_all_products_run page page_size category_id max_price in_stock
                 seller_id db min_price fs Hrange Hfs). simpl.
      repeat split. exists [SelectCount; SelectProducts].
      rewrite <- app_assoc. auto.
    + unfold get_all_products. rewrite Hrange, Hfs. simpl.
      repeat split. exists []. rewrite app_nil_r. auto.
Qed.

End ListingProperties.

Lemma get_all_products_items_meet_filters_witness :
  Forall (fun p => In p (products store0) /\
                   meets_plain_filters (Some 1) (Some (6 # 1)%Q) (Some true) (Some 7) p)
    [pen].
Proof.
  apply (get_all_products_items_meet_filters 1 20 (Some 1) None (Some (6 # 1)%Q)
           (Some true) (Some 7) store0 (ProductList.mk [pen] 1 1 20)).
  reflexivity.
Defined.

Lemma get_all_products_page_length_witness :
  Z.of_nat (List.length [ink]) = Z.min 1 (Z.max 0 (2 - (2 - 1) * 1)).
Proof.
  apply (get_all_products_page_length 2 1 None None None None None store0
           (ProductList.mk [ink] 2 2 1)); [lia | lia | reflexivity].
Defined.

Section Paging.

Variables (page_size : Z).
Variables (category_id : option Z) (max_price : option Q).
Variables (in_stock : option bool) (seller_id : option Z).
Variable db : Database.

(** Without a lower price bound, page [k] is the [k]-th window of the
    ordered matching rows. *)
Lemma listed_items_window (k : nat) :
  (1 <= k)%nat -> 0 <= page_size ->
  listed_items (Z.of_nat k) page_size category_id None max_price in_stock
    seller_id db
  = firstn (Z.to_nat page_size)
      (skipn ((k - 1) * Z.to_nat page_size)
         (order_by_id (filter (matches_supplied_filters category_id None max_price
                                  in_stock seller_id) (products db)))).
Proof.
  intros Hk Hsize. unfold listed_items.
  destruct (build_filters_without_min_price category_id max_price in_stock seller_id)
    as (fs & Hfs & Hmatch).
  rewrite (get_all_products_run (Z.of_nat k) page_size category_id max_price
             in_stock seller_id db None fs eq_refl Hfs). simpl.
  rewrite (filter_ext _ _ Hmatch).
  replace (Z.to_nat ((Z.of_nat k - 1) * page_size))
    with ((k - 1) * Z.to_nat page_size)%nat; [reflexivity|].
  replace (Z.of_nat k - 1) with (Z.of_nat (k - 1)) by lia.
  rewrite Z2Nat.inj_mul by lia. rewrite Nat2Z.id. reflexivity.
Qed.

Lemma pages_up_to_prefix (n : nat) :
  0 <= page_size ->
  pages_up_to n page_size category_id None max_price in_stock seller_id db
  = firstn (n * Z.to_nat page_size)
      (order_by_id (filter (matches_supplied_filters category_id None max_price
                                  in_stock seller_id) (products db))).
Proof.
  intros Hsize. unfold pages_up_to.
  rewrite <- windows_concat.
  rewrite !flat_map_concat_map. f_equal.
  apply map_ext_in. intros k Hk. apply in_seq in Hk.
  apply listed_items_window; [lia | exact Hsize].
Qed.

End Paging.

(** Paging through a listing without a lower price bound: once the pages
    1 to [n] cover the total, their items one after the other are the active
    products satisfying the supplied filters, each exactly as often as it is
    stored, in ascending id order. *)
Theorem pages_up_to_complete
    (n : nat) (page_size : Z) (category_id : option Z) (max_price : option Q)
    (in_stock : option bool) (seller_id : option Z) (db : Database) :
  1 <= page_size ->
  Z.of_nat (List.length
              (filter (matches_supplied_filters category_id None max_price
                         in_stock seller_id) (products db)))
  <= Z.of_nat n * page_size ->
  Permutation
    (pages_up_to n page_size category_id None max_price in_stock seller_id db)
    (filter (matches_supplied_filters category_id None max_price in_stock seller_id)
       (products db)) /\
  StronglySorted id_le
    (pages_up_to n page_size category_id None max_price in_stock seller_id db).
Proof.
  intros Hsize Hcover.
  rewrite pages_up_to_prefix by lia.
  rewrite firstn_all2.
  - split; [apply Permutation_sym, order_by_id_perm | apply order_by_id_sorted].
  - rewrite order_by_id_length.
    apply Nat2Z.inj_le. rewrite Nat2Z.inj_mul, Z2Nat.id by lia. exact Hcover.
Qed.

Lemma pages_up_to_complete_witness :
  Permutation (pages_up_to 2 1 (Some 1) None None None None store0) [pen; ink] /\
  StronglySorted id_le (pages_up_to 2 1 (Some 1) None None None None store0).
Proof.
  apply (pages_up_to_complete 2 1 (Some 1) None None None store0);
    [lia | simpl; lia].
Defined.

Section StrictOrder.

Lemma NoDup_map_filter {A B} (f : A -> B) (g : A -> bool) (l : list A) :
  NoDup (map f l) -> NoDup (map f (filter g l)).
Proof.
  induction l as [|a l IH]; simpl; intros H; [constructor|].
  inversion H as [|? ? Hnot Hrest]; subst.
  destruct (g a); simpl; [|exact (IH Hrest)].
  constructor; [|exact (IH Hrest)].
  intros Hin. apply Hnot. apply in_map_iff in Hin.
  destruct Hin as (x & Hx & Hxin). apply filter_In in Hxin.
  rewrite <- Hx. apply in_map. tauto.
Qed.

Lemma NoDup_map_window {A B} (f : A -> B) (s o : nat) (l : list A) :
  NoDup (map f l) -> NoDup (map f (firstn s (skipn o l))).
Proof.
  intros H.
  rewrite <- (firstn_skipn o l), map_app in H.
  apply NoDup_app_remove_l in H.
  rewrite <- (firstn_skipn s (skipn o l)), map_app in H.
  apply NoDup_app_remove_r in H. exact H.
Qed.

Lemma sorted_strict (l : list ProductModel.t) :
  StronglySorted id_le l -> NoDup (map ProductModel.id l) ->
  StronglySorted id_lt l.
Proof.
  induction 1 as [|a l Hs IH Ha]; simpl; intros Hnd; [constructor|].
  inversion Hnd as [|? ? Hnot Hrest]; subst.
  constructor; [exact (IH Hrest)|].
  apply Forall_forall. intros q Hq.
  rewrite Forall_forall in Ha. specialize (Ha q Hq).
  unfold id_le in Ha. unfold id_lt.
  assert (ProductModel.id a <> ProductModel.id q).
  { intros Heq. apply Hnot. rewrite Heq. apply in_map. exact Hq. }
  lia.
Qed.

End StrictOrder.

(** With the product ids a primary key, the ids of the items of a listing
    are strictly ascending: no product is listed twice on a page. *)
Theorem get_all_products_strictly_ascending
    (page page_size : Z) (category_id : option Z) (min_price max_price : option Q)
    (in_stock : option bool) (seller_id : option Z) (db : Database)
    (r : ProductList.t) :
  NoDup (map ProductModel.id (products db)) ->
  fst (get_all_products page page_size category_id min_price max_price
         in_stock seller_id db) = Return r ->
  StronglySorted id_lt (ProductList.items r).
Proof.
  intros Hkey H. apply get_all_products_returns in H.
  destruct H as (fs & Hfs & ->). simpl.
  apply sorted_strict.
  - apply window_sorted, order_by_id_sorted.
  - apply NoDup_map_window.
    apply (Permutation_NoDup
             (Permutation_map ProductModel.id
                (order_by_id_perm (filter (where_ fs) (products db))))).
    apply NoDup_map_filter. exact Hkey.
Qed.

Lemma get_all_products_strictly_ascending_witness :
  StronglySorted id_lt [pen; ink].
Proof.
  apply (get_all_products_strictly_ascending 1 20 None None None None None store0
           (ProductList.mk [pen; ink] 2 1 20)); [|reflexivity].
  simpl. constructor; [simpl; intros [H | []]; discriminate H|].
  constructor; [simpl; tauto | constructor].
Defined.

(** ** Products of a category *)

(** The products of a category: for a missing or inactive category the
    handler raises 404 and reads only; for an active category it returns the
    stored rows that are active and carry the category id, and no others,
    leaving both tables as they were. *)
Theorem get_products_by_category_cases (category_id : Z) (db : Database) :
  ((forall c, In c (categories db) -> CategoryModel.id c = category_id ->
              CategoryModel.is_active c = false) ->
   rejects (get_products_by_category category_id) db
     (HTTPException 404 "Category not found or inactive")) /\
  ((exists c, In c (categories db) /\ CategoryModel.id c = category_id /\
              CategoryModel.is_active c = true) ->
   exists l,
     fst (get_products_by_category category_id db) = Return l /\
     (forall p, In p l <->
                In p (products db) /\ ProductModel.is_active p = true /\
                ProductModel.category_id p = category_id) /\
     products (snd (get_products_by_category category_id db)) = products db /\
     categories (snd (get_products_by_category category_id db)) = categories db).
Proof.
  split.
  - intros H. apply find_active_category_None in H.
    unfold get_products_by_category. close_rejects.
  - intros H. apply find_active_category_exists in H. destruct H as (c & Hc).
    unfold get_products_by_category. run_handler. rewrite Hc. simpl.
    eexists. split; [reflexivity|]. split; [|split; reflexivity].
    intros p. rewrite filter_In. split.
    + intros (Hin & H). apply andb_prop in H. destruct H as [Ha Hcat].
      apply Bool.eqb_prop in Ha. apply Z.eqb_eq in Hcat. auto.
    + intros (Hin & Ha & Hcat). split; [exact Hin|].
      rewrite Ha, Hcat, Z.eqb_refl. reflexivity.
Qed.

Lemma get_products_by_category_cases_witness :
  rejects (get_products_by_category 2) store0
    (HTTPException 404 "Category not found or inactive") /\
  exists l, fst (get_products_by_category 1 store0) = Return l /\
            (In ink l <-> In ink (products store0) /\
                          ProductModel.is_active ink = true /\
                          ProductModel.category_id ink = 1).
Proof.
  split.
  - destruct (get_products_by_category_cases 2 store0) as (H & _).
    apply H. simpl. intros c [<- | [<- | []]]; simpl; [lia | reflexivity].
  - destruct (get_products_by_category_cases 1 store0) as (_ & H).
    destruct H as (l & Hl & Hin & _).
    + exists office. simpl. auto.
    + exists l. split; [exact Hl | apply Hin].
Defined.

(** ** Retrieval, continued *)

(** What retrieval returns is a stored active row under the requested id
    whose category is stored and active. *)
Theorem get_product_sound (product_id : Z) (db : Database) (p : ProductModel.t) :
  fst (get_product product_id db) = Return p ->
  In p (products db) /\ ProductModel.id p = product_id /\
  ProductModel.is_active p = true /\
  exists c, In c (categories db) /\
            CategoryModel.id c = ProductModel.category_id p /\
            CategoryModel.is_active c = true.
Proof.
  unfold get_product. run_handler.
  destruct (find_active_product (products db) product_id) as [q|] eqn:E; simpl;
    [|discriminate].
  destruct (find_active_category (categories db) (ProductModel.category_id q))
    as [c|] eqn:Ec; simpl; [|discriminate].
  intros H. injection H as <-.
  apply find_active_product_Some in E. destruct E as (Hin & Hid & Hact).
  apply find_active_category_Some in Ec.
  repeat split; try assumption. exists c. exact Ec.
Qed.

Lemma get_product_sound_witness :
  In pen (products store0) /\ ProductModel.id pen = 1 /\
  ProductModel.is_active pen = true /\
  exists c, In c (categories store0) /\
            CategoryModel.id c = ProductModel.category_id pen /\
            CategoryModel.is_active c = true.
Proof.
  apply (get_product_sound 1 store0 pen). reflexivity.
Defined.

(** ** Soft deletion, continued *)

(** The checks of the deletion handler, in their order: with no active row
    under the id it raises 404 whoever calls; with an active row owned by
    another seller it raises 403.  Both tables are as before and only read
    statements were issued; the category of the product is not looked at. *)
Theorem delete_product_checks
    (product_id : Z) (current_user : UserModel.t) (db : Database) :
  ((forall q, In q (products db) -> ProductModel.id q = product_id ->
              ProductModel.is_active q = false) ->
   rejects (delete_product product_id current_user) db
     (HTTPException 404 "Product not found or inactive")) /\
  (forall p,
      find_active_product (products db) product_id = Some p ->
      ProductModel.seller_id p <> UserModel.id current_user ->
      rejects (delete_product product_id current_user) db
        (HTTPException 403 "You can only delete your own products")).
Proof.
  split.
  - intros H. apply delete_product_not_found, find_active_product_None, H.
  - intros p Hp Hs. exact (delete_product_forbidden _ _ _ p Hp Hs).
Qed.

Lemma delete_product_checks_witness :
  rejects (delete_product 5 seller7) store0
    (HTTPException 404 "Product not found or inactive") /\
  rejects (delete_product 1 seller8) store0
    (HTTPException 403 "You can only delete your own products").
Proof.
  split.
  - destruct (delete_product_checks 5 seller7 store0) as (H & _).
    apply H. simpl. intros q [<- | [<- | []]]; simpl; lia.
  - destruct (delete_product_checks 1 seller8 store0) as (_ & H).
    apply (H pen); [reflexivity | simpl; lia].
Defined.

(** After a deletion that returned, the product is gone for the readers and
    still stored: retrieval by its id raises 404, no listing request
    returns an item under its id, and the product table has a row under the
    id and as many rows as before. *)
Theorem delete_product_then_unavailable
    (product_id : Z) (current_user : UserModel.t) (db : Database)
    (r : ProductModel.t) :
  fst (delete_product product_id current_user db) = Return r ->
  rejects (get_product product_id) (snd (delete_product product_id current_user db))
    (HTTPException 404 "Product not found or inactive") /\
  (forall page page_size c lo hi s sel l,
      fst (get_all_products page page_size c lo hi s sel
             (snd (delete_product product_id current_user db))) = Return l ->
      forall q, In q (ProductList.items l) -> ProductModel.id q <> product_id) /\
  (exists q, In q (products (snd (delete_product product_id current_user db))) /\
             ProductModel.id q = product_id) /\
  List.length (products (snd (delete_product product_id current_user db)))
  = List.length (products db).
Proof.
  intros Hret.
  destruct (delete_product_returns _ _ _ _ Hret) as (p & Hp & Hs).
  destruct (delete_product_run product_id current_user db p Hp Hs)
    as (q & Hqin & Hqid & Hrun).
  rewrite Hrun. simpl.
  assert (Hgone : forall x, In x (update_rows product_id values_inactive (products db)) ->
                            ProductModel.id x = product_id ->
                            ProductModel.is_active x = false).
  { intros x Hx Hxid. unfold update_rows in Hx. apply in_map_iff in Hx.
    destruct Hx as (x0 & Hx0 & _).
    destruct (ProductModel.id x0 =? product_id) eqn:E; subst x.
    - reflexivity.
    - apply Z.eqb_neq in E. contradiction. }
  split; [|split; [|split]].
  - pose proof (find_active_product_deactivated product_id (products db)) as Hnone.
    unfold get_product. unfold rejects. run_handler. rewrite Hnone. simpl.
    repeat split. exists [SelectProduct product_id]. auto.
  - intros page page_size c lo hi s sel l Hl x Hx Hxid.
    apply get_all_products_returns in Hl. destruct Hl as (fs & Hfs & ->).
    simpl in Hx.
    apply window_In, order_by_id_In, filter_In in Hx. destruct Hx as [Hin Hw].
    pose proof (build_filters_active _ _ _ _ _ _ _ Hfs Hw) as Hact.
    rewrite (Hgone x Hin Hxid) in Hact. discriminate.
  - exists (values_inactive q). split; [|exact Hqid].
    unfold update_rows. apply in_map_iff. exists q.
    rewrite Hqid, Z.eqb_refl. auto.
  - unfold update_rows. apply length_map.
Qed.

Lemma delete_product_then_unavailable_witness :
  rejects (get_product 1) (snd (delete_product 1 seller7 store0))
    (HTTPException 404 "Product not found or inactive") /\
  List.length (products (snd (delete_product 1 seller7 store0))) = 2%nat.
Proof.
  destruct (delete_product_then_unavailable 1 seller7 store0
              (ProductModel.mk 1 "pen" "ballpoint" (5 # 1)%Q 3 1 7 false) eq_refl)
    as (Hget & _ & _ & Hlen).
  split; [exact Hget | exact Hlen].
Defined.

(** ** Creation, continued *)

Section CreateMore.

Lemma find_last {A} (f : A -> bool) (l : list A) (a : A) :
  (forall x, In x l -> f x = false) -> f a = true ->
  find f (l ++ [a]) = Some a.
Proof.
  induction l as [|x l IH]; simpl; intros Hl Ha.
  - rewrite Ha. reflexivity.
  - rewrite (Hl x (or_introl eq_refl)). apply IH; auto.
Qed.

Lemma NoDup_map_snoc (l : list ProductModel.t) (p : ProductModel.t) :
  NoDup (map ProductModel.id l) ->
  (forall q, In q l -> ProductModel.id q <> ProductModel.id p) ->
  NoDup (map ProductModel.id (l ++ [p])).
Proof.
  intros Hnd Hne. rewrite map_app. simpl.
  apply NoDup_rev in Hnd.
  rewrite <- (rev_involutive (map ProductModel.id l ++ [ProductModel.id p])).
  apply NoDup_rev. rewrite rev_app_distr. simpl.
  constructor; [|exact Hnd].
  intros Hin. apply in_rev, in_map_iff in Hin.
  destruct Hin as (q & Hq & Hqin). exact (Hne q Hqin Hq).
Qed.

End CreateMore.

(** A created product can be retrieved: when creation returns a product,
    retrieval by its id on the resulting store returns that same product. *)
Theorem create_product_then_get
    (product : ProductCreate.t) (current_user : UserModel.t) (db : Database)
    (p : ProductModel.t) :
  fst (create_product product current_user db) = Return p ->
  fst (get_product (ProductModel.id p) (snd (create_product product current_user db)))
  = Return p.
Proof.
  destruct (find_active_category (categories db) (ProductCreate.category_id product))
    as [c|] eqn:Hc.
  - rewrite (create_product_run product current_user db c Hc). simpl.
    intros H. injection H as <-. simpl.
    unfold get_product. run_handler.
    unfold find_active_product.
    rewrite find_last.
    + simpl. rewrite Hc. reflexivity.
    + intros x Hx. apply next_id_above in Hx.
      destruct (ProductModel.id x =? next_id (products db)) eqn:E; [|reflexivity].
      apply Z.eqb_eq in E. lia.
    + simpl. rewrite Z.eqb_refl. reflexivity.
  - destruct (create_product_invalid_category product current_user db Hc)
      as (Hraise & _).
    rewrite Hraise. discriminate.
Qed.

Lemma create_product_then_get_witness :
  fst (get_product 3
         (snd (create_product (ProductCreate.mk "pencil" "hb" (2 # 1)%Q 10 1)
                 seller8 store0)))
  = Return (ProductModel.mk 3 "pencil" "hb" (2 # 1)%Q 10 1 8 true).
Proof.
  apply (create_product_then_get (ProductCreate.mk "pencil" "hb" (2 # 1)%Q 10 1)
           seller8 store0 (ProductModel.mk 3 "pencil" "hb" (2 # 1)%Q 10 1 8 true)).
  reflexivity.
Defined.

(** Creation keeps the product ids a primary key, whether it returns or
    raises. *)
Theorem create_product_keeps_primary_key
    (product : ProductCreate.t) (current_user : UserModel.t) (db : Database) :
  NoDup (map ProductModel.id (products db)) ->
  NoDup (map ProductModel.id
           (products (snd (create_product product current_user db)))).
Proof.
  intros Hkey.
  destruct (find_active_category (categories db) (ProductCreate.category_id product))
    as [c|] eqn:Hc.
  - rewrite (create_product_run product current_user db c Hc). simpl.
    apply NoDup_map_snoc; [exact Hkey|].
    intros q Hq. apply next_id_above in Hq. simpl. lia.
  - destruct (create_product_invalid_category product current_user db Hc)
      as (_ & Hsame & _).
    rewrite Hsame. exact Hkey.
Qed.

Lemma create_product_keeps_primary_key_witness :
  NoDup (map ProductModel.id
           (products (snd (create_product
                             (ProductCreate.mk "pencil" "hb" (2 # 1)%Q 10 1)
                             seller8 store0)))).
Proof.
  apply (create_product_keeps_primary_key
           (ProductCreate.mk "pencil" "hb" (2 # 1)%Q 10 1) seller8 store0).
  simpl. constructor; [simpl; intros [H | []]; discriminate H|].
  constructor; [simpl; tauto | constructor].
Defined.

(** ** Update, continued *)

Section UpdateMore.

Variables (product_id : Z) (body_product : ProductCreate.t).
Variable current_user : UserModel.t.
Variable db : Database.

(** An update that returns was asked by the owner of an active row whose
    category is active. *)
Lemma update_product_returns r :
  fst (update_product product_id body_product current_user db) = Return r ->
  exists p c,
    find_active_product (products db) product_id = Some p /\
    ProductModel.seller_id p = UserModel.id current_user /\
    find_active_category (categories db) (ProductModel.category_id p) = Some c.
Proof.
  unfold update_product. run_handler.
  destruct (find_active_product (products db) product_id) as [p|] eqn:E; simpl;
    [|discriminate].
  destruct (ProductModel.seller_id p =? UserModel.id current_user) eqn:Es; simpl;
    [|discriminate].
  destruct (find_active_category (categories db) (ProductModel.category_id p))
    as [c|] eqn:Ec; simpl; [|discriminate].
  intros _. exists p, c. apply Z.eqb_eq in Es. auto.
Qed.

(** The lookup of the active row under the id sees the written values. *)
Lemma find_active_product_updated l :
  find_active_product (update_rows product_id (values_of_body body_product) l)
    product_id
  = option_map (values_of_body body_product) (find_active_product l product_id).
Proof.
  unfold find_active_product, update_rows.
  induction l as [|q l IH]; simpl; [reflexivity|].
  destruct (ProductModel.id q =? product_id) eqn:E; simpl.
  - rewrite E. simpl.
    destruct (Bool.eqb (ProductModel.is_active q) true); [reflexivity | exact IH].
  - rewrite E. simpl. exact IH.
Qed.

(** The tables after any call of the update handler. *)
Lemma update_product_tables :
  (products (snd (update_product product_id body_product current_user db))
   = products db \/
   products (snd (update_product product_id body_product current_user db))
   = update_rows product_id (values_of_body body_product) (products db)) /\
  categories (snd (update_product product_id body_product current_user db))
  = categories db.
Proof.
  unfold update_product. run_handler.
  destruct (find_active_product (products db) product_id) as [p|]; simpl; auto.
  destruct (ProductModel.seller_id p =? UserModel.id current_user); simpl; auto.
  destruct (find_active_category (categories db) (ProductModel.category_id p));
    simpl; auto.
  destruct (find _ _); simpl; auto.
Qed.

End UpdateMore.

(** An update never changes who owns a row, whether a row is active, or the
    id of a row, and never adds or removes a row or touches the categories:
    column by column, the ids, sellers and flags of the product table are
    the same after any call, returning or raising. *)
Theorem update_product_keeps_owner_and_flag
    (product_id : Z) (body_product : ProductCreate.t)
    (current_user : UserModel.t) (db : Database) :
  map (fun p => (ProductModel.id p, ProductModel.seller_id p,
                 ProductModel.is_active p))
    (products (snd (update_product product_id body_product current_user db)))
  = map (fun p => (ProductModel.id p, ProductModel.seller_id p,
                   ProductModel.is_active p)) (products db) /\
  categories (snd (update_product product_id body_product current_user db))
  = categories db.
Proof.
  destruct (update_product_tables product_id body_product current_user db)
    as [[-> | ->] Hc]; split; try exact Hc; try reflexivity.
  unfold update_rows. rewrite map_map. apply map_ext.
  intros p. destruct (ProductModel.id p =? product_id); reflexivity.
Qed.

(** The frame of an update that returns, the ids of the product table being
    a primary key: exactly one row is replaced, the active row under the id,
    owned by the caller; the replacement has the name, description, price,
    stock and category_id of the body and the id, seller_id and is_active of
    the row it replaces; it is the product returned. *)
Theorem update_product_frame
    (product_id : Z) (body_product : ProductCreate.t)
    (current_user : UserModel.t) (db : Database) (r : ProductModel.t) :
  NoDup (map ProductModel.id (products db)) ->
  fst (update_product product_id body_product current_user db) = Return r ->
  exists l1 p l2,
    products db = l1 ++ p :: l2 /\
    ProductModel.id p = product_id /\
    ProductModel.is_active p = true /\
    ProductModel.seller_id p = UserModel.id current_user /\
    r = ProductModel.mk (ProductModel.id p)
          (ProductCreate.name body_product) (ProductCreate.description body_product)
          (ProductCreate.price body_product) (ProductCreate.stock body_product)
          (ProductCreate.category_id body_product)
          (ProductModel.seller_id p) (ProductModel.is_active p) /\
    products (snd (update_product product_id body_product current_user db))
    = l1 ++ r :: l2.
Proof.
  intros Hkey Hret.
  destruct (update_product_returns _ _ _ _ _ Hret) as (p & c & Hp & Hs & Hc).
  destruct (update_product_run product_id body_product current_user db p c Hp Hs Hc)
    as (q & Hrun & Hqin & Hqid & Hprod & _).
  rewrite Hrun in Hret. injection Hret as <-. rewrite Hprod.
  destruct (find_active_product_Some _ _ _ Hp) as (Hin & Hid & Hact).
  destruct (in_split _ _ Hin) as (l1 & l2 & Hsplit).
  rewrite Hsplit in Hkey.
  destruct (primary_key_split l1 l2 p Hkey) as [H1 H2].
  rewrite Hid in H1, H2.
  assert (Hq : q = p).
  { rewrite Hsplit in Hqin. apply in_app_or in Hqin.
    destruct Hqin as [Hq | [Hq | Hq]].
    - exfalso. exact (H1 q Hq Hqid).
    - symmetry. exact Hq.
    - exfalso. exact (H2 q Hq Hqid). }
  subst q.
  exists l1, p, l2.
  split; [exact Hsplit|]. split; [exact Hid|]. split; [exact Hact|].
  split; [exact Hs|]. split; [reflexivity|].
  rewrite Hsplit.
  rewrite (updated_app product_id (values_of_body body_product) l1 p l2 Hid).
  rewrite (updated_elsewhere product_id (values_of_body body_product) l1 H1).
  rewrite (updated_elsewhere product_id (values_of_body body_product) l2 H2).
  reflexivity.
Qed.

Lemma update_product_frame_witness :
  exists l1 p l2,
    products store0 = l1 ++ p :: l2 /\
    products (snd (update_product 2 (ProductCreate.mk "ink" "blue" (8 # 1)%Q 4 1)
                     seller8 store0))
    = l1 ++ ProductModel.mk 2 "ink" "blue" (8 # 1)%Q 4 1 8 true :: l2.
Proof.
  assert (Hkey : NoDup (map ProductModel.id (products store0))).
  { simpl. constructor; [simpl; intros [H | []]; discriminate H|].
    constructor; [simpl; tauto | constructor]. }
  destruct (update_product_frame 2 (ProductCreate.mk "ink" "blue" (8 # 1)%Q 4 1)
              seller8 store0 (ProductModel.mk 2 "ink" "blue" (8 # 1)%Q 4 1 8 true)
              Hkey eq_refl)
    as (l1 & p & l2 & Hsplit & _ & _ & _ & _ & Hafter).
  exists l1, p, l2. auto.
Defined.

Section UpdateThenRead.

Variables (product_id : Z) (body_product : ProductCreate.t).
Variable current_user : UserModel.t.
Variable db : Database.

Lemma primary_key_unique (l : list ProductModel.t) p q :
  NoDup (map ProductModel.id l) -> In p l -> In q l ->
  ProductModel.id q = ProductModel.id p -> q = p.
Proof.
  intros Hkey Hp Hq Hid.
  destruct (in_split _ _ Hp) as (l1 & l2 & ->).
  destruct (primary_key_split l1 l2 p Hkey) as [H1 H2].
  apply in_app_or in Hq. destruct Hq as [Hq | [Hq | Hq]].
  - exfalso. exact (H1 q Hq Hid).
  - symmetry. exact Hq.
  - exfalso. exact (H2 q Hq Hid).
Qed.

(** The store after an update that returned [r], under a primary key: the
    lookup of the active row under the id yields [r], which carries the
    category id of the body; the categories are as before. *)
Lemma update_product_then_lookup r :
  NoDup (map ProductModel.id (products db)) ->
  fst (update_product product_id body_product current_user db) = Return r ->
  find_active_product
    (products (snd (update_product product_id body_product current_user db)))
    product_id = Some r /\
  ProductModel.category_id r = ProductCreate.category_id body_product /\
  ProductModel.seller_id r = UserModel.id current_user /\
  categories (snd (update_product product_id body_product current_user db))
  = categories db.
Proof.
  intros Hkey Hret.
  destruct (update_product_returns _ _ _ _ _ Hret) as (p & c & Hp & Hs & Hc).
  destruct (update_product_run product_id body_product current_user db p c Hp Hs Hc)
    as (q & Hrun & Hqin & Hqid & Hprod & Hcat).
  rewrite Hrun in Hret. injection Hret as <-. rewrite Hprod, Hcat.
  destruct (find_active_product_Some _ _ _ Hp) as (Hin & Hid & Hact).
  assert (Hq : q = p)
    by (apply (primary_key_unique (products db)); congruence).
  subst q.
  rewrite find_active_product_updated, Hp. simpl. auto.
Qed.

End UpdateThenRead.

(** Reading after an update that returned, the ids of the product table
    being a primary key.  When the category named by the body is active,
    retrieval by the id returns the updated product.  When it is missing or
    inactive, the update went through all the same, and from then on
    retrieval by the id raises 404 for the category and every further update
    of the product by its owner raises 400, whatever its body. *)
Theorem update_product_then_read
    (product_id : Z) (body_product : ProductCreate.t)
    (current_user : UserModel.t) (db : Database) (r : ProductModel.t) :
  NoDup (map ProductModel.id (products db)) ->
  fst (update_product product_id body_product current_user db) = Return r ->
  ((exists c, In c (categories db) /\
              CategoryModel.id c = ProductCreate.category_id body_product /\
              CategoryModel.is_active c = true) ->
   fst (get_product product_id
          (snd (update_product product_id body_product current_user db)))
   = Return r) /\
  ((forall c, In c (categories db) ->
              CategoryModel.id c = ProductCreate.category_id body_product ->
              CategoryModel.is_active c = false) ->
   rejects (get_product product_id)
     (snd (update_product product_id body_product current_user db))
     (HTTPException 404 "Category not found or inactive") /\
   forall body,
     rejects (update_product product_id body current_user)
       (snd (update_product product_id body_product current_user db))
       (HTTPException 400 "Category not found or inactive")).
Proof.
  intros Hkey Hret.
  destruct (update_product_then_lookup product_id body_product current_user db r
              Hkey Hret) as (Hfind & Hcat & Hsel & Hcats).
  split.
  - intros Hc. apply find_active_category_exists in Hc. destruct Hc as (c & Hc).
    unfold get_product. run_handler. rewrite Hfind. simpl.
    rewrite Hcats, Hcat, Hc. reflexivity.
  - intros Hc. apply find_active_category_None in Hc.
    rewrite <- Hcat, <- Hcats in Hc.
    split.
    + unfold get_product, rejects. run_handler. rewrite Hfind. simpl.
      rewrite Hc. simpl. repeat split.
      rewrite <- app_assoc. eexists. split; reflexivity.
    + intros body.
      exact (update_product_invalid_category product_id body current_user _ r
               Hfind Hsel Hc).
Qed.

Lemma update_product_then_read_witness :
  fst (get_product 2
         (snd (update_product 2 (ProductCreate.mk "ink" "blue" (8 # 1)%Q 4 1)
                 seller8 store0)))
  = Return (ProductModel.mk 2 "ink" "blue" (8 # 1)%Q 4 1 8 true) /\
  rejects (get_product 1)
    (snd (update_product 1 (ProductCreate.mk "pen" "ballpoint" (5 # 1)%Q 3 2)
            seller7 store0))
    (HTTPException 404 "Category not found or inactive").
Proof.
  assert (Hkey : NoDup (map ProductModel.id (products store0))).
  { simpl. constructor; [simpl; intros [H | []]; discriminate H|].
    constructor; [simpl; tauto | constructor]. }
  split.
  - destruct (update_product_then_read 2 (ProductCreate.mk "ink" "blue" (8 # 1)%Q 4 1)
                seller8 store0 (ProductModel.mk 2 "ink" "blue" (8 # 1)%Q 4 1 8 true)
                Hkey eq_refl) as (H & _).
    apply H. exists office. simpl. auto.
  - destruct (update_product_then_read 1
                (ProductCreate.mk "pen" "ballpoint" (5 # 1)%Q 3 2)
                seller7 store0
                (ProductModel.mk 1 "pen" "ballpoint" (5 # 1)%Q 3 2 7 true)
                Hkey eq_refl) as (_ & H).
    apply H. simpl. intros c [<- | [<- | []]]; simpl; [lia | reflexivity].
Defined.

(** ** What no handler does *)

(** No handler of the router removes a product row or touches the category
    table: after creation the ids of the product table are the ids before,
    followed by at most one new id; after deletion they are the ids before;
    the categories are the same after either, returning or raising. *)
Theorem rows_are_never_removed (db : Database) :
  (forall product current_user,
      (products (snd (create_product product current_user db)) = products db \/
       exists p, products (snd (create_product product current_user db))
                 = products db ++ [p]) /\
      categories (snd (create_product product current_user db)) = categories db) /\
  (forall product_id current_user,
      map ProductModel.id (products (snd (delete_product product_id current_user db)))
      = map ProductModel.id (products db) /\
      categories (snd (delete_product product_id current_user db)) = categories db).
Proof.
  split.
  - intros product current_user.
    destruct (find_active_category (categories db)
                (ProductCreate.category_id product)) as [c|] eqn:Hc.
    + rewrite (create_product_run product current_user db c Hc). simpl.
      split; [right; eexists; reflexivity | reflexivity].
    + destruct (create_product_invalid_category product current_user db Hc)
        as (_ & Hp & Hcs & _).
      split; [left; exact Hp | exact Hcs].
  - intros product_id current_user.
    destruct (find_active_product (products db) product_id) as [p|] eqn:E.
    + destruct (Z.eq_dec (ProductModel.seller_id p) (UserModel.id current_user))
        as [Hs | Hs].
      * destruct (delete_product_run product_id current_user db p E Hs)
          as (q & _ & _ & Hrun).
        rewrite Hrun. simpl. split; [|reflexivity].
        unfold update_rows. rewrite map_map. apply map_ext.
        intros x. destruct (ProductModel.id x =? product_id); reflexivity.
      * destruct (delete_product_forbidden product_id current_user db p E Hs)
          as (_ & Hp & Hcs & _).
        rewrite Hp. auto.
    + destruct (delete_product_not_found product_id current_user db E)
        as (_ & Hp & Hcs & _).
      rewrite Hp. auto.
Qed.

(** ** The interface of the listing endpoint, continued *)

Lemma resolve_price_negative (q : Query.t Q) (v : Q) :
  Query.ge q = Some (0 # 1)%Q -> Qlt v (0 # 1) ->
  Query.resolve Qle_bool q (Some v) = None.
Proof.
  intros Hge Hv. unfold Query.resolve. rewrite Hge.
  destruct (Qle_bool (0 # 1) v) eqn:E; [|reflexivity].
  apply Qle_bool_iff in E. exfalso. exact (Qlt_not_le _ _ Hv E).
Qed.

(** A listing request with a negative [min_price] or a negative [max_price]
    is refused with the validation error and the handler does not run: no
    statement is issued. *)
Theorem route_get_all_products_negative_price (r : Request.t) (v : Q) (db : Database) :
  (Request.min_price r = Some v \/ Request.max_price r = Some v) ->
  Qlt v (0 # 1) ->
  route_get_all_products r db
  = (Raise (HTTPException 422 "validation error"), db).
Proof.
  intros Hprice Hv. destruct r as [pg ps c lo hi s sel]. simpl in Hprice.
  unfold route_get_all_products.
  cbn [Request.page Request.page_size Request.category_id Request.min_price
       Request.max_price Request.in_stock Request.seller_id].
  destruct (Query.resolve Z.leb page_query pg) as [[page|]|]; try reflexivity.
  destruct (Query.resolve Z.leb page_size_query ps) as [[page_size|]|];
    try reflexivity.
  destruct (Query.resolve Z.leb category_id_query c) as [cat|]; try reflexivity.
  destruct Hprice as [-> | ->].
  - rewrite (resolve_price_negative min_price_query v eq_refl Hv). reflexivity.
  - rewrite (resolve_price_negative max_price_query v eq_refl Hv).
    destruct (Query.resolve Qle_bool min_price_query lo); reflexivity.
Qed.

Lemma route_get_all_products_negative_price_witness :
  route_get_all_products
    (Request.mk None None None (Some (-1 # 1)%Q) None None None) store0
  = (Raise (HTTPException 422 "validation error"), store0).
Proof.
  apply (route_get_all_products_negative_price
           (Request.mk None None None (Some (-1 # 1)%Q) None None None)
           (-1 # 1)%Q store0); [left; reflexivity | reflexivity].
Defined.
